(** * Mixer: a shallow embedding of [contracts/Mixer.sol]

    The contract is modelled as functions in a small state-and-revert monad
    over the contract's storage.  Every storage write, every external call
    and every emitted log is appended to a chronological trace, so that
    ordering properties of a single call can be stated.  A transaction either
    commits the final storage or reverts and leaves the storage untouched.

    The two external calls of the contract are modelled by their outcome,
    which the environment of the call supplies: the verifier returns a
    boolean or reverts, the recipient of a transfer accepts it or not.  The
    storage the callee can observe during the transfer is recorded in the
    trace (with the balance as it was before the transfer).  Calls from the
    callee back into the mixer are not run by the model;
    [guard_rejects_withdraw] and [guard_rejects_deposit] show that the
    reentrancy guard rejects those into [withdraw] and [deposit] during the
    transfer of a [withdraw], while [emergencyWithdraw] pays its recipient
    without the guard, so what is stated about it stops at the call.  Ether
    that reaches the contract without a call to [deposit] (sent to the
    address before deployment, or forced in) is not modelled either:
    [constructor] starts from a balance of 0.  Integers are unbounded:
    balances stay far below [2^256]. *)

From Stdlib Require Import ZArith List String Lia Bool.
From stdpp Require Import base option list gmap strings.

Local Open Scope Z_scope.

(** ** Value types

    [bytes32], [uint256] and [address] values are carried as integers.  The
    conversions [uint256(bytes32)] and [uint256(uint160(address))] used by
    [withdraw] preserve the numeric value, so they are the identity here. *)

Abbreviation bytes32 := Z (only parsing).
Abbreviation uint256 := Z (only parsing).
Abbreviation address := Z (only parsing).

(** [uint256 public constant DEPOSIT_AMOUNT = 0.1 ether], in wei. *)
Definition DEPOSIT_AMOUNT : uint256 := 100000000000000000.

(** ReentrancyGuard's two status values. *)
Definition _NOT_ENTERED : uint256 := 1.
Definition _ENTERED : uint256 := 2.

(** A Groth16 proof as [withdraw] receives it:
    [uint256[2] a], [uint256[2][2] b], [uint256[2] c]. *)
Record Proof := mkProof {
  proof_a : uint256 * uint256;
  proof_b : (uint256 * uint256) * (uint256 * uint256);
  proof_c : uint256 * uint256
}.

(** ** Storage *)

(** The storage of [Mixer] with the storage of its three base contracts
    ([Pausable._paused], [ReentrancyGuard._status], [Ownable._owner]) and
    the contract's own ether balance [address(this).balance]. *)
Record State := mkState {
  nullifiers : gmap Z bool;
  commitments : gmap Z bool;
  merkleRoots : list Z;
  verifier : address;
  _paused : bool;
  _status : uint256;
  _owner : address;
  balance : uint256
}.

(** Reading a [mapping(bytes32 => bool)]: an absent key reads [false]. *)
Definition mapping_get (m : gmap Z bool) (k : bytes32) : bool :=
  default false (m !! k).

(** ** Observable steps of a call *)

Inductive Log :=
| Deposit (commitment : bytes32) (amount : uint256) (timestamp : uint256)
| Withdrawal (recipient : address) (amount : uint256) (nullifierHash : bytes32)
| MerkleRootUpdated (root : bytes32)
| Paused (account : address)
| Unpaused (account : address)
| OwnershipTransferred (previousOwner newOwner : address).

Inductive Write :=
| WNullifier (nullifierHash : bytes32) (v : bool)
| WCommitment (commitment : bytes32) (v : bool)
| WPushRoot (root : bytes32)
| WPaused (v : bool)
| WStatus (v : uint256)
| WOwner (a : address).

(** What an external call gives back to the caller. *)
Inductive call_result :=
| Returned (b : bool)
| Threw (data : string).

Inductive Event :=
| EvReceive (amount : uint256)
| EvStore (w : Write)
| EvVerify (target : address) (p : Proof) (inputs : list uint256)
           (r : call_result)
| EvCall (to : address) (amount : uint256) (seen : State) (sent : bool)
| EvEmit (l : Log).

Abbreviation Trace := (list Event) (only parsing).

(** Why a call reverted: a [require] of this contract (or of a base
    contract) with its message, or the revert data of a callee that the
    caller did not catch. *)
Inductive revert_reason :=
| Reason (msg : string)
| Bubbled (data : string).

Inductive Result (A : Type) :=
| Ok (a : A) (s : State) (t : list Event)
| Revert (r : revert_reason) (t : list Event).
Arguments Ok {A} a s t.
Arguments Revert {A} r t.

(** ** The environment of a call

    The two external collaborators of [withdraw]:
    - the [Verifier] contract ([contracts/Verifier.sol] is generated by the
      build and is not part of the sources), reached through
      [verifier.verifyProof(a, b, c, inputs)]: it returns a boolean or
      reverts;
    - the account that receives ether through [recipient.call{value: ..}("")]:
      it accepts the transfer or not.
    [self] is the address of the mixer itself. *)
Record Env := mkEnv {
  verifyProof : address -> Proof -> list uint256 -> call_result;
  accepts : address -> uint256 -> bool;
  self : address
}.

(** What the caller supplies with a call. *)
Record Msg := mkMsg {
  msg_sender : address;
  block_timestamp : uint256
}.

(** ** The monad *)

Definition M (A : Type) : Type := State -> list Event -> Result A.

Definition ret {A} (a : A) : M A := fun s t => Ok a s t.

Definition bind {A B} (m : M A) (k : A -> M B) : M B :=
  fun s t =>
    match m s t with
    | Ok a s' t' => k a s' t'
    | Revert r t' => Revert r t'
    end.

(** stdpp's monad notations: [x ← m; k] and [m;; k]. *)
#[global] Instance M_ret : MRet M := @ret.
#[global] Instance M_bind : MBind M := fun A B k m => bind m k.

Definition get {A} (f : State -> A) : M A := fun s t => Ok (f s) s t.

Definition revert {A} (r : revert_reason) : M A := fun _ t => Revert r t.

Definition require (cond : bool) (msg : string) : M unit :=
  if cond then ret tt else revert (Reason msg).

(** The effect of one storage write. *)
Definition apply_write (w : Write) (s : State) : State :=
  match w with
  | WNullifier h v =>
      mkState (<[h := v]> (nullifiers s)) (commitments s) (merkleRoots s)
              (verifier s) (_paused s) (_status s) (_owner s) (balance s)
  | WCommitment c v =>
      mkState (nullifiers s) (<[c := v]> (commitments s)) (merkleRoots s)
              (verifier s) (_paused s) (_status s) (_owner s) (balance s)
  | WPushRoot r =>
      mkState (nullifiers s) (commitments s) (merkleRoots s ++ [r])
              (verifier s) (_paused s) (_status s) (_owner s) (balance s)
  | WPaused v =>
      mkState (nullifiers s) (commitments s) (merkleRoots s)
              (verifier s) v (_status s) (_owner s) (balance s)
  | WStatus v =>
      mkState (nullifiers s) (commitments s) (merkleRoots s)
              (verifier s) (_paused s) v (_owner s) (balance s)
  | WOwner a =>
      mkState (nullifiers s) (commitments s) (merkleRoots s)
              (verifier s) (_paused s) (_status s) a (balance s)
  end.

Definition store (w : Write) : M unit :=
  fun s t => Ok tt (apply_write w s) (t ++ [EvStore w]).

Definition set_balance (s : State) (b : uint256) : State :=
  mkState (nullifiers s) (commitments s) (merkleRoots s)
          (verifier s) (_paused s) (_status s) (_owner s) b.

Definition emit (l : Log) : M unit := fun s t => Ok tt s (t ++ [EvEmit l]).

(** A payable function is entered with [msg.value] already credited. *)
Definition receive (amount : uint256) : M unit :=
  fun s t => Ok tt (set_balance s (balance s + amount)) (t ++ [EvReceive amount]).

(** [verifier.verifyProof(a, b, c, inputs)]: a high-level call, so a revert
    of the callee reverts the caller with the callee's data. *)
Definition call_verifyProof (env : Env) (p : Proof) (inputs : list uint256)
  : M bool :=
  fun s t =>
    let r := verifyProof env (verifier s) p inputs in
    let t' := t ++ [EvVerify (verifier s) p inputs r] in
    match r with
    | Returned b => Ok b s t'
    | Threw data => Revert (Bubbled data) t'
    end.

(** [to.call{value: amount}("")]: a low-level call, which reports failure
    in its first result instead of reverting.  It fails when the balance
    does not cover [amount], when the target is the mixer itself (which has
    no [receive] or [fallback] function) and when the target refuses. *)
Definition call_value (env : Env) (to : address) (amount : uint256) : M bool :=
  fun s t =>
    let sent := (amount <=? balance s) && negb (to =? self env)
                && accepts env to amount in
    let s' := if sent then set_balance s (balance s - amount) else s in
    Ok sent s' (t ++ [EvCall to amount s sent]).

(** ** The base contracts

    [Mixer is ReentrancyGuard, Pausable, Ownable]: the three modifiers it
    uses, as the OpenZeppelin contracts imported from [security/] and
    [access/] define them. *)

(** [modifier whenNotPaused]: [require(!paused(), "Pausable: paused")]. *)
Definition whenNotPaused (body : M unit) : M unit :=
  p ← get _paused;
  require (negb p) "Pausable: paused";;
  body.

(** [modifier whenPaused]: [require(paused(), "Pausable: not paused")]. *)
Definition whenPaused (body : M unit) : M unit :=
  p ← get _paused;
  require p "Pausable: not paused";;
  body.

(** [modifier nonReentrant]: the status is checked and set before the body
    and reset after it. *)
Definition nonReentrant (body : M unit) : M unit :=
  st ← get _status;
  require (negb (st =? _ENTERED)) "ReentrancyGuard: reentrant call";;
  store (WStatus _ENTERED);;
  body;;
  store (WStatus _NOT_ENTERED).

(** [modifier onlyOwner]:
    [require(owner() == _msgSender(), "Ownable: caller is not the owner")]. *)
Definition onlyOwner (m : Msg) (body : M unit) : M unit :=
  o ← get _owner;
  require (o =? msg_sender m) "Ownable: caller is not the owner";;
  body.

Definition _transferOwnership (newOwner : address) : M unit :=
  oldOwner ← get _owner;
  store (WOwner newOwner);;
  emit (OwnershipTransferred oldOwner newOwner).

Definition transferOwnership (m : Msg) (newOwner : address) : M unit :=
  onlyOwner m (
    require (negb (newOwner =? 0)) "Ownable: new owner is the zero address";;
    _transferOwnership newOwner).

Definition renounceOwnership (m : Msg) : M unit :=
  onlyOwner m (_transferOwnership 0).

(** ** The contract *)

(** [constructor(address _verifier)]: the deployer becomes the owner, the
    contract starts unpaused and not entered, and the genesis root
    [bytes32(0)] is pushed. *)
Definition constructor (deployer : address) (_verifier : address) : State :=
  {| nullifiers := ∅;
     commitments := ∅;
     merkleRoots := [0];
     verifier := _verifier;
     _paused := false;
     _status := _NOT_ENTERED;
     _owner := deployer;
     balance := 0 |}.

(** [isValidRoot]: the loop over [merkleRoots] from index 0, returning at
    the first equal entry. *)
Fixpoint isValidRoot_from (roots : list bytes32) (root : bytes32) : bool :=
  match roots with
  | [] => false
  | r :: rest => if r =? root then true else isValidRoot_from rest root
  end.

Definition isValidRoot (s : State) (root : bytes32) : bool :=
  isValidRoot_from (merkleRoots s) root.

(** [deposit(bytes32 commitment) external payable whenNotPaused nonReentrant] *)
Definition deposit (m : Msg) (msg_value : uint256) (commitment : bytes32)
  : M unit :=
  receive msg_value;;
  whenNotPaused (nonReentrant (
    require (msg_value =? DEPOSIT_AMOUNT) "Incorrect deposit amount";;
    present ← get (fun s => mapping_get (commitments s) commitment);
    require (negb present) "Commitment exists";;
    store (WCommitment commitment true);;
    emit (Deposit commitment msg_value (block_timestamp m)))).

(** [withdraw(a, b, c, root, nullifierHash, recipient)
      external whenNotPaused nonReentrant] *)
Definition withdraw (env : Env) (p : Proof) (root nullifierHash : bytes32)
    (recipient : address) : M unit :=
  whenNotPaused (nonReentrant (
    require (negb (recipient =? 0)) "Invalid recipient";;
    used ← get (fun s => mapping_get (nullifiers s) nullifierHash);
    require (negb used) "Nullifier used";;
    valid ← get (fun s => isValidRoot s root);
    require valid "Invalid root";;
    let inputs := [root; nullifierHash; recipient] in
    ok ← call_verifyProof env p inputs;
    require ok "Invalid proof";;
    store (WNullifier nullifierHash true);;
    sent ← call_value env recipient DEPOSIT_AMOUNT;
    require sent "Transfer failed";;
    emit (Withdrawal recipient DEPOSIT_AMOUNT nullifierHash))).

(** [addMerkleRoot(bytes32 newRoot) external onlyOwner] *)
Definition addMerkleRoot (m : Msg) (newRoot : bytes32) : M unit :=
  onlyOwner m (
    store (WPushRoot newRoot);;
    emit (MerkleRootUpdated newRoot)).

(** [pause() external onlyOwner { _pause(); }] *)
Definition pause (m : Msg) : M unit :=
  onlyOwner m (whenNotPaused (
    store (WPaused true);;
    emit (Paused (msg_sender m)))).

(** [unpause() external onlyOwner { _unpause(); }] *)
Definition unpause (m : Msg) : M unit :=
  onlyOwner m (whenPaused (
    store (WPaused false);;
    emit (Unpaused (msg_sender m)))).

(** [emergencyWithdraw(address payable to) external onlyOwner] *)
Definition emergencyWithdraw (env : Env) (m : Msg) (to : address) : M unit :=
  onlyOwner m (
    bal ← get balance;
    sent ← call_value env to bal;
    require sent "Emergency withdraw failed").

(** What a view function gives back: a value, or a panic with its code
    ([0x11] for checked arithmetic, [0x32] for an index out of bounds). *)
Inductive view_result (A : Type) :=
| Returns (a : A)
| Panics (code : Z).
Arguments Returns {A} a.
Arguments Panics {A} code.

(** [getAllRoots() external view returns (bytes32[] memory)] *)
Definition getAllRoots (s : State) : list bytes32 := merkleRoots s.

(** [getCurrentRoot()]: [merkleRoots[merkleRoots.length - 1]], with the
    checked subtraction and the checked index of Solidity 0.8. *)
Definition getCurrentRoot (s : State) : view_result bytes32 :=
  let len := Z.of_nat (length (merkleRoots s)) in
  if len - 1 <? 0 then Panics 17
  else
    match merkleRoots s !! Z.to_nat (len - 1) with
    | Some r => Returns r
    | None => Panics 50
    end.

(** [getBalance()]: [address(this).balance]. *)
Definition getBalance (s : State) : uint256 := balance s.

(** ** Transactions *)

(** The state-changing entry points of the deployed contract. *)
Inductive Call :=
| CallDeposit (msg_value : uint256) (commitment : bytes32)
| CallWithdraw (p : Proof) (root nullifierHash : bytes32) (recipient : address)
| CallAddMerkleRoot (newRoot : bytes32)
| CallPause
| CallUnpause
| CallEmergencyWithdraw (to : address)
| CallTransferOwnership (newOwner : address)
| CallRenounceOwnership.

Definition dispatch (env : Env) (m : Msg) (c : Call) : M unit :=
  match c with
  | CallDeposit v commitment => deposit m v commitment
  | CallWithdraw p root nh recipient => withdraw env p root nh recipient
  | CallAddMerkleRoot r => addMerkleRoot m r
  | CallPause => pause m
  | CallUnpause => unpause m
  | CallEmergencyWithdraw to => emergencyWithdraw env m to
  | CallTransferOwnership n => transferOwnership m n
  | CallRenounceOwnership => renounceOwnership m
  end.

(** A transaction: the environment it runs in, its caller and its call. *)
Record Tx := mkTx {
  tx_env : Env;
  tx_msg : Msg;
  tx_call : Call
}.

(** Running a call as a transaction from storage [s], with an empty trace. *)
Definition execute (x : Tx) (s : State) : Result unit :=
  dispatch (tx_env x) (tx_msg x) (tx_call x) s [].

Definition succeeds {A} (r : Result A) : bool :=
  match r with Ok _ _ _ => true | Revert _ _ => false end.

(** The storage after a transaction: the final storage of a call that
    returns, the initial storage of one that reverts. *)
Definition commit (s : State) (r : Result unit) : State :=
  match r with Ok _ s' _ => s' | Revert _ _ => s end.

Definition step (s : State) (x : Tx) : State := commit s (execute x s).

Definition run (s : State) (txs : list Tx) : State := fold_left step txs s.

(** The states the deployed contract can be in between transactions. *)
Inductive reachable : State -> Prop :=
| reachable_init deployer v : reachable (constructor deployer v)
| reachable_step s x : reachable s -> reachable (step s x).

(** * Definitions for the statements *)

(** ** Running the monad *)

Ltac mred :=
  cbn [_paused _status _owner balance nullifiers commitments merkleRoots
       verifier apply_write set_balance negb].

Ltac run_monad :=
  unfold whenNotPaused, whenPaused, nonReentrant, onlyOwner, require, revert,
    get, store, emit, receive, call_verifyProof, call_value,
    _transferOwnership, mbind, M_bind, bind, mret, M_ret, ret;
  mred.

(** The storage in which the body of a guarded function runs. *)
Definition entered (s : State) : State := apply_write (WStatus _ENTERED) s.

(** The storage a guarded function leaves. *)
Definition exited (s : State) : State := apply_write (WStatus _NOT_ENTERED) s.

(** What [recipient.call{value: amount}("")] reports from storage [s]. *)
Definition transfer_ok (env : Env) (s : State) (to : address)
    (amount : uint256) : bool :=
  (amount <=? balance s) && negb (to =? self env) && accepts env to amount.

(** The storage in which [withdraw] attempts the transfer. *)
Definition spent_state (s : State) (nullifierHash : bytes32) : State :=
  apply_write (WNullifier nullifierHash true) (entered s).

(** ** Closed forms

    What [withdraw] and [deposit] come to when the monadic code is run:
    which check fails first, with which trace, and the final storage of a
    call that returns.  [withdraw_runs] and [deposit_runs] prove them equal
    to the code. *)
Definition withdraw_result (env : Env) (p : Proof) (root nh : bytes32)
    (recipient : address) (s : State) (t : list Event) : Result unit :=
  if _paused s then Revert (Reason "Pausable: paused") t
  else if _status s =? _ENTERED
  then Revert (Reason "ReentrancyGuard: reentrant call") t
  else
    let t1 := t ++ [EvStore (WStatus _ENTERED)] in
    if recipient =? 0 then Revert (Reason "Invalid recipient") t1
    else if mapping_get (nullifiers s) nh
    then Revert (Reason "Nullifier used") t1
    else if negb (isValidRoot s root) then Revert (Reason "Invalid root") t1
    else
      let inputs := [root; nh; recipient] in
      let r := verifyProof env (verifier s) p inputs in
      let t2 := t1 ++ [EvVerify (verifier s) p inputs r] in
      match r with
      | Threw data => Revert (Bubbled data) t2
      | Returned false => Revert (Reason "Invalid proof") t2
      | Returned true =>
          let s2 := spent_state s nh in
          let sent := transfer_ok env s2 recipient DEPOSIT_AMOUNT in
          let t3 := t2 ++ [EvStore (WNullifier nh true);
                           EvCall recipient DEPOSIT_AMOUNT s2 sent] in
          if sent
          then Ok tt
                 (exited (set_balance s2 (balance s2 - DEPOSIT_AMOUNT)))
                 (t3 ++ [EvEmit (Withdrawal recipient DEPOSIT_AMOUNT nh);
                         EvStore (WStatus _NOT_ENTERED)])
          else Revert (Reason "Transfer failed") t3
      end.

Definition deposit_result (m : Msg) (msg_value : uint256)
    (commitment : bytes32) (s : State) (t : list Event) : Result unit :=
  let t0 := t ++ [EvReceive msg_value] in
  if _paused s then Revert (Reason "Pausable: paused") t0
  else if _status s =? _ENTERED
  then Revert (Reason "ReentrancyGuard: reentrant call") t0
  else
    let t1 := t0 ++ [EvStore (WStatus _ENTERED)] in
    if negb (msg_value =? DEPOSIT_AMOUNT)
    then Revert (Reason "Incorrect deposit amount") t1
    else if mapping_get (commitments s) commitment
    then Revert (Reason "Commitment exists") t1
    else
      Ok tt
        (exited (apply_write (WCommitment commitment true)
                 (entered (set_balance s (balance s + msg_value)))))
        (t1 ++ [EvStore (WCommitment commitment true);
                EvEmit (Deposit commitment msg_value (block_timestamp m));
                EvStore (WStatus _NOT_ENTERED)]).

(** ** Monotone storage

    [grows s s']: every spent nullifier and every stored commitment of [s]
    is still set in [s'], the root history of [s'] is that of [s] with
    roots appended, and the verifier address is the same. *)
Definition grows (s s' : State) : Prop :=
  (forall h, mapping_get (nullifiers s) h = true ->
             mapping_get (nullifiers s') h = true)
  /\ (forall c, mapping_get (commitments s) c = true ->
                mapping_get (commitments s') c = true)
  /\ (exists more, merkleRoots s' = merkleRoots s ++ more)
  /\ verifier s' = verifier s.

Ltac crunch :=
  repeat (mred;
          match goal with
          | |- context [if ?c then _ else _] => destruct c eqn:?
          | |- context [match verifyProof ?e ?a ?p ?i with _ => _ end] =>
              destruct (verifyProof e a p i) as [[|]|?] eqn:?
          end);
  mred.

Ltac no_such_event H i :=
  repeat (destruct i as [|i]; cbn in H; try discriminate H).

(** A transaction, by cases on its call. *)
Ltac by_call x :=
  unfold step, execute; destruct x as [env m c];
  cbn [tx_env tx_msg tx_call] in *;
  destruct c as [v cm|p root nh rcp|r| | |to|n|]; cbn [dispatch].

(** ** Reading a result *)

Definition trace_of {A} (r : Result A) : list Event :=
  match r with Ok _ _ t => t | Revert _ t => t end.

Definition reason_of {A} (r : Result A) : option revert_reason :=
  match r with Ok _ _ _ => None | Revert e _ => Some e end.

(** A write to the nullifier registry, the commitment set or the root
    history (and not to the pause flag, the guard status or the owner). *)
Definition mutates_registry (e : Event) : bool :=
  match e with
  | EvStore (WNullifier _ _) | EvStore (WCommitment _ _)
  | EvStore (WPushRoot _) => true
  | _ => false
  end.

Definition is_verify (e : Event) : bool :=
  match e with EvVerify _ _ _ _ => true | _ => false end.

(** Whether the verifier was called in a trace. *)
Definition verifier_consulted (t : list Event) : bool := existsb is_verify t.

(** The ether a trace moved to [who]. *)
Fixpoint paid_to (t : list Event) (who : address) : uint256 :=
  match t with
  | [] => 0
  | EvCall to amount _ true :: rest =>
      (if to =? who then amount else 0) + paid_to rest who
  | _ :: rest => paid_to rest who
  end.

(** ** Counting along a run *)

Definition withdraws_nullifier (h : bytes32) (c : Call) : bool :=
  match c with
  | CallWithdraw _ _ nh _ => nh =? h
  | _ => false
  end.

(** How many withdrawals of nullifier hash [h] succeed along a run. *)
Fixpoint withdraw_successes (s : State) (txs : list Tx) (h : bytes32) : nat :=
  match txs with
  | [] => 0%nat
  | x :: rest =>
      ((if withdraws_nullifier h (tx_call x) && succeeds (execute x s)
        then 1 else 0)
       + withdraw_successes (step s x) rest h)%nat
  end.

(** How many transactions of a run succeed. *)
Fixpoint successes (s : State) (txs : list Tx) : nat :=
  match txs with
  | [] => 0%nat
  | x :: rest =>
      ((if succeeds (execute x s) then 1 else 0)
       + successes (step s x) rest)%nat
  end.

Definition is_deposit (c : Call) : bool :=
  match c with CallDeposit _ _ => true | _ => false end.

Definition is_withdraw (c : Call) : bool :=
  match c with CallWithdraw _ _ _ _ => true | _ => false end.

Definition is_emergencyWithdraw (c : Call) : bool :=
  match c with CallEmergencyWithdraw _ => true | _ => false end.

Definition is_addMerkleRoot (root : bytes32) (c : Call) : bool :=
  match c with CallAddMerkleRoot r => r =? root | _ => false end.

(** How many transactions of a run that make a call of kind [f] succeed. *)
Fixpoint count_successes (f : Call -> bool) (s : State) (txs : list Tx)
  : nat :=
  match txs with
  | [] => 0%nat
  | x :: rest =>
      ((if f (tx_call x) && succeeds (execute x s) then 1 else 0)
       + count_successes f (step s x) rest)%nat
  end.

(** ** Comparing two storages *)





(** ** Sample deployment

    A deployment by account 1 with the verifier at address 2, a verifier
    that accepts every proof (the placeholder the tests run against) and
    recipients that accept ether. *)
Definition zero_proof : Proof := mkProof (0, 0) ((0, 0), (0, 0)) (0, 0).

Definition placeholder_env : Env :=
  mkEnv (fun _ _ _ => Returned true) (fun _ _ => true) 1000.

(** A verifier that rejects its input by reverting, as the generated
    Groth16 verifiers do on an out-of-field public input. *)
Definition throwing_env : Env :=
  mkEnv (fun _ _ _ => Threw "verifier-gte-snark-scalar-field")
        (fun _ _ => true) 1000.

Definition user : Msg := mkMsg 5 1700000000.
Definition admin : Msg := mkMsg 1 1700000000.

Definition genesis : State := constructor 1 2.

(** A deposit of the right amount. *)
Definition deposit_tx (c : bytes32) : Tx :=
  mkTx placeholder_env user (CallDeposit DEPOSIT_AMOUNT c).

(** [n] deposits of the commitments [start], [start + 1], ... *)
Fixpoint deposits (start : bytes32) (n : nat) : list Tx :=
  match n with
  | O => []
  | S k => deposit_tx start :: deposits (start + 1) k
  end.

Definition first_deposit : Tx := deposit_tx 42.

(** After one deposit of commitment 42. *)
Definition funded : State := step genesis first_deposit.

(** After the deposit and a withdrawal of nullifier hash 7 to account 77. *)
Definition withdrawn : State :=
  step funded (mkTx placeholder_env user (CallWithdraw zero_proof 0 7 77)).


(** The owner's calls on the sample deployment. *)
Definition admin_tx (c : Call) : Tx := mkTx placeholder_env admin c.

(** The same calls from an account that is not the owner. *)
Definition user_tx (c : Call) : Tx := mkTx placeholder_env user c.

(** [funded], paused by the owner. *)
Definition funded_paused : State := step funded (admin_tx CallPause).

(** * Properties *)

(** ** How each entry point runs *)

Lemma withdraw_runs env p root nh recipient s t :
  withdraw env p root nh recipient s t
  = withdraw_result env p root nh recipient s t.
Proof.
  unfold withdraw, withdraw_result, spent_state, entered, exited, transfer_ok,
    isValidRoot.
  run_monad.
  destruct (_paused s) eqn:Hp; [reflexivity|]. mred.
  destruct (_status s =? _ENTERED); [reflexivity|]. mred.
  destruct (recipient =? 0); [reflexivity|]. mred.
  destruct (mapping_get (nullifiers s) nh); [reflexivity|]. mred.
  destruct (isValidRoot_from (merkleRoots s) root); [|reflexivity]. mred.
  destruct (verifyProof env (verifier s) p [root; nh; recipient])
    as [[|]|data]; try reflexivity.
  mred.
  destruct ((DEPOSIT_AMOUNT <=? balance s) && negb (recipient =? self env)
            && accepts env recipient DEPOSIT_AMOUNT);
    mred; rewrite <- ?app_assoc, ?Hp; reflexivity.
Qed.

Lemma deposit_runs m v commitment s t :
  deposit m v commitment s t = deposit_result m v commitment s t.
Proof.
  unfold deposit, deposit_result, entered, exited.
  run_monad.
  destruct (_paused s) eqn:Hp; [reflexivity|]. mred.
  destruct (_status s =? _ENTERED); [reflexivity|]. mred.
  destruct (v =? DEPOSIT_AMOUNT); [|reflexivity]. mred.
  destruct (mapping_get (commitments s) commitment); [reflexivity|].
  mred. rewrite <- ?app_assoc, ?Hp. reflexivity.
Qed.

(** A call into [withdraw] or [deposit] while the guard is entered fails:
    this is what a callee that calls back during the transfer meets. *)
Lemma guard_rejects_withdraw env p root nh rcp s t :
  _status s = _ENTERED ->
  succeeds (withdraw env p root nh rcp s t) = false
  /\ (_paused s = false ->
      withdraw env p root nh rcp s t
      = Revert (Reason "ReentrancyGuard: reentrant call") t).
Proof.
  intros Hs. rewrite withdraw_runs. unfold withdraw_result. rewrite Hs.
  change (_ENTERED =? _ENTERED) with true.
  destruct (_paused s); split; try reflexivity; discriminate.
Qed.

Lemma guard_rejects_deposit m v c s t :
  _status s = _ENTERED ->
  succeeds (deposit m v c s t) = false
  /\ (_paused s = false ->
      deposit m v c s t
      = Revert (Reason "ReentrancyGuard: reentrant call")
          (t ++ [EvReceive v])).
Proof.
  intros Hs. rewrite deposit_runs. unfold deposit_result. rewrite Hs.
  change (_ENTERED =? _ENTERED) with true.
  destruct (_paused s); split; try reflexivity; discriminate.
Qed.

(** ** Mappings and the root scan *)

Lemma mapping_get_insert (m : gmap Z bool) (h k : Z) (v : bool) :
  mapping_get (<[h := v]> m) k = if k =? h then v else mapping_get m k.
Proof.
  unfold mapping_get. destruct (Z.eqb_spec k h) as [->|Hne].
  - by rewrite lookup_insert_eq.
  - by rewrite lookup_insert_ne.
Qed.

Lemma mapping_get_empty (k : Z) : mapping_get (∅ : gmap Z bool) k = false.
Proof. unfold mapping_get. by rewrite lookup_empty. Qed.

Lemma isValidRoot_from_In (roots : list Z) (root : Z) :
  isValidRoot_from roots root = true <-> In root roots.
Proof.
  induction roots as [|r rest IH]; cbn.
  - split; [discriminate | tauto].
  - destruct (Z.eqb_spec r root) as [->|Hne].
    + split; auto.
    + rewrite IH. split; [auto | intros [H|H]; [contradiction | exact H]].
Qed.

Lemma isValidRoot_from_app (roots more : list Z) (root : Z) :
  isValidRoot_from (roots ++ more) root
  = isValidRoot_from roots root || isValidRoot_from more root.
Proof.
  induction roots as [|r rest IH]; cbn; [reflexivity|].
  destruct (r =? root); [reflexivity | exact IH].
Qed.

(** ** What no call undoes *)

Lemma grows_refl s : grows s s.
Proof.
  repeat split; auto. exists []. by rewrite app_nil_r.
Qed.

Lemma grows_trans s1 s2 s3 : grows s1 s2 -> grows s2 s3 -> grows s1 s3.
Proof.
  intros (Hn1 & Hc1 & [m1 Hr1] & Hv1) (Hn2 & Hc2 & [m2 Hr2] & Hv2).
  repeat split; auto.
  - exists (m1 ++ m2). by rewrite Hr2, Hr1, app_assoc.
  - congruence.
Qed.

Lemma grows_same_maps s s' :
  nullifiers s' = nullifiers s -> commitments s' = commitments s ->
  merkleRoots s' = merkleRoots s -> verifier s' = verifier s -> grows s s'.
Proof.
  intros Hn Hc Hr Hv. unfold grows. rewrite Hn, Hc, Hr, Hv.
  apply grows_refl.
Qed.

Lemma step_grows s x : grows s (step s x).
Proof.
  unfold step, execute. destruct x as [env m c]. cbn [tx_env tx_msg tx_call].
  destruct c as [v cm|p root nh rcp|r| | |to|n|]; cbn [dispatch].
  - rewrite deposit_runs. unfold deposit_result, exited, entered.
    crunch; cbn [commit]; try apply grows_refl.
    repeat split; cbn; auto.
    + intros c Hc. rewrite mapping_get_insert. by destruct (c =? cm).
    + exists []. by rewrite app_nil_r.
  - rewrite withdraw_runs.
    unfold withdraw_result, exited, entered, spent_state, transfer_ok.
    crunch; cbn [commit]; try apply grows_refl.
    repeat split; cbn; auto.
    + intros h Hh. rewrite mapping_get_insert. by destruct (h =? nh).
    + exists []. by rewrite app_nil_r.
  - unfold addMerkleRoot. run_monad. crunch; cbn [commit];
      try apply grows_refl.
    repeat split; cbn; auto. by exists [r].
  - unfold pause. run_monad. crunch; cbn [commit]; try apply grows_refl.
    by apply grows_same_maps.
  - unfold unpause. run_monad. crunch; cbn [commit]; try apply grows_refl.
    by apply grows_same_maps.
  - unfold emergencyWithdraw. run_monad. crunch; cbn [commit];
      try apply grows_refl.
    by apply grows_same_maps.
  - unfold transferOwnership. run_monad. crunch; cbn [commit];
      try apply grows_refl.
    by apply grows_same_maps.
  - unfold renounceOwnership. run_monad. crunch; cbn [commit];
      try apply grows_refl.
    by apply grows_same_maps.
Qed.

Lemma run_grows txs : forall s, grows s (run s txs).
Proof.
  induction txs as [|x txs IH]; intros s; cbn.
  - apply grows_refl.
  - eapply grows_trans; [apply step_grows | apply IH].
Qed.

(** Between transactions the reentrancy status is [_NOT_ENTERED]: a call
    that returns has reset it, a call that reverts has changed nothing. *)
Lemma step_not_entered s x :
  _status s = _NOT_ENTERED -> _status (step s x) = _NOT_ENTERED.
Proof.
  intros Hs. unfold step, execute. destruct x as [env m c].
  cbn [tx_env tx_msg tx_call].
  destruct c as [v cm|p root nh rcp|r| | |to|n|]; cbn [dispatch].
  - rewrite deposit_runs. unfold deposit_result, exited, entered.
    crunch; cbn [commit]; mred; auto.
  - rewrite withdraw_runs.
    unfold withdraw_result, exited, entered, spent_state, transfer_ok.
    crunch; cbn [commit]; mred; auto.
  - unfold addMerkleRoot. run_monad. crunch; cbn [commit]; mred; auto.
  - unfold pause. run_monad. crunch; cbn [commit]; mred; auto.
  - unfold unpause. run_monad. crunch; cbn [commit]; mred; auto.
  - unfold emergencyWithdraw. run_monad. crunch; cbn [commit]; mred; auto.
  - unfold transferOwnership. run_monad. crunch; cbn [commit]; mred; auto.
  - unfold renounceOwnership. run_monad. crunch; cbn [commit]; mred; auto.
Qed.

Lemma reachable_not_entered s : reachable s -> _status s = _NOT_ENTERED.
Proof.
  induction 1 as [d v|s x _ IH]; [reflexivity | by apply step_not_entered].
Qed.

Lemma reachable_run s txs : reachable s -> reachable (run s txs).
Proof.
  revert s. induction txs as [|x txs IH]; intros s Hs; cbn; [exact Hs|].
  apply IH. by constructor.
Qed.

(** ** Runs of transactions *)

Lemma withdraw_spent_fails env p root h rcp s t :
  mapping_get (nullifiers s) h = true ->
  succeeds (withdraw env p root h rcp s t) = false.
Proof.
  intros Hh. rewrite withdraw_runs. unfold withdraw_result.
  rewrite Hh. crunch; reflexivity.
Qed.

Lemma withdraw_success_spends env p root h rcp s t :
  succeeds (withdraw env p root h rcp s t) = true ->
  mapping_get (nullifiers s) h = false
  /\ mapping_get (nullifiers (commit s (withdraw env p root h rcp s t))) h
     = true.
Proof.
  rewrite withdraw_runs. unfold withdraw_result, exited, spent_state, entered.
  crunch; cbn [succeeds commit]; try discriminate.
  intros _. split; [reflexivity|]. mred.
  rewrite mapping_get_insert. by rewrite Z.eqb_refl.
Qed.

Lemma spent_no_successes txs : forall s h,
  mapping_get (nullifiers s) h = true -> withdraw_successes s txs h = 0%nat.
Proof.
  induction txs as [|x txs IH]; intros s h Hh; cbn [withdraw_successes];
    [reflexivity|].
  rewrite (IH (step s x) h) by (by apply step_grows).
  destruct x as [env m c]. cbn [tx_call].
  destruct c; cbn [withdraws_nullifier]; try reflexivity.
  destruct (Z.eqb_spec nullifierHash h) as [->|]; [|reflexivity].
  unfold execute. cbn [tx_env tx_msg tx_call dispatch].
  by rewrite withdraw_spent_fails.
Qed.

Lemma withdraw_successes_le_1 txs : forall s h,
  (withdraw_successes s txs h <= 1)%nat.
Proof.
  induction txs as [|x txs IH]; intros s h; cbn [withdraw_successes];
    [lia|].
  destruct (withdraws_nullifier h (tx_call x) && succeeds (execute x s))
    eqn:Hx.
  - apply andb_true_iff in Hx as [Hw Hok].
    destruct x as [env m c]. cbn [tx_call] in Hw.
    destruct c; cbn [withdraws_nullifier] in Hw; try discriminate.
    apply Z.eqb_eq in Hw as ->.
    unfold execute in Hok. cbn [tx_env tx_msg tx_call dispatch] in Hok.
    apply withdraw_success_spends in Hok as [_ Hspent].
    rewrite spent_no_successes; [lia|].
    unfold step, execute. cbn [tx_env tx_msg tx_call dispatch]. exact Hspent.
  - specialize (IH (step s x) h). lia.
Qed.

(** ** C9: the root history only grows *)

(** C9. The root history is append-only: every call (deposit, withdraw,
    addMerkleRoot, pause, unpause, emergencyWithdraw and the ownership
    calls) leaves [merkleRoots] as it was or with roots appended, so a root
    that [isValidRoot] accepts is accepted after any further run of
    transactions; and the genesis root [bytes32(0)] pushed by the constructor
    is valid in every reachable state. *)
Theorem C9_root_history_append_only (s : State) (r : bytes32) :
  (forall x, exists more, merkleRoots (step s x) = merkleRoots s ++ more)
  /\ (isValidRoot s r = true ->
      forall txs, isValidRoot (run s txs) r = true)
  /\ (forall s', reachable s' -> isValidRoot s' 0 = true).
Proof.
  assert (Hmono : forall s0 txs r0, isValidRoot s0 r0 = true ->
                    isValidRoot (run s0 txs) r0 = true).
  { intros s0 txs r0 H0. destruct (run_grows txs s0) as (_ & _ & [more Hm] & _).
    unfold isValidRoot in *. rewrite Hm, isValidRoot_from_app, H0.
    reflexivity. }
  split; [|split].
  - intros x. by destruct (step_grows s x) as (_ & _ & Hroots & _).
  - intros Hr txs. by apply Hmono.
  - intros s' Hs'. induction Hs' as [deployer v|s0 x _ IH]; [reflexivity|].
    apply (Hmono s0 [x] 0 IH).
Qed.

Lemma C9_root_history_append_only_witness :
  isValidRoot genesis 0 = true
  /\ isValidRoot
       (run genesis [mkTx placeholder_env admin (CallAddMerkleRoot 9);
                     mkTx placeholder_env admin CallPause]) 0 = true
  /\ reachable funded
  /\ isValidRoot funded 0 = true.
Proof.
  destruct (C9_root_history_append_only genesis 0) as (_ & Hkept & Hgenesis).
  assert (Hfunded : reachable funded) by (repeat constructor).
  split; [reflexivity|]. split; [|split].
  - apply Hkept. reflexivity.
  - exact Hfunded.
  - apply Hgenesis. exact Hfunded.
Defined.

(** ** C1: a nullifier hash is spent at most once *)

(** C1.  For every nullifier hash [h]: along any run of transactions at
    most one withdrawal of [h] succeeds; a successful withdrawal finds [h]
    unspent and leaves it spent; once [h] is spent it stays spent through
    every later transaction, and every later withdrawal of [h] fails,
    whatever the proof and the verifier's answer.  The failure is "Nullifier
    used" in every call that reaches the nullifier check, that is, one that
    the pause gate, the reentrancy guard and the recipient check, which come
    first, let through. *)
Theorem C1_nullifier_spent_at_most_once (s : State) (h : bytes32) :
  (forall txs, (withdraw_successes s txs h <= 1)%nat)
  /\ (forall env p root rcp t,
        succeeds (withdraw env p root h rcp s t) = true ->
        mapping_get (nullifiers s) h = false
        /\ mapping_get
             (nullifiers (commit s (withdraw env p root h rcp s t))) h = true)
  /\ (mapping_get (nullifiers s) h = true ->
      (forall txs, mapping_get (nullifiers (run s txs)) h = true)
      /\ (forall env p root rcp t,
            succeeds (withdraw env p root h rcp s t) = false
            /\ (_paused s = false -> _status s = _NOT_ENTERED -> rcp <> 0 ->
                withdraw env p root h rcp s t
                = Revert (Reason "Nullifier used")
                    (t ++ [EvStore (WStatus _ENTERED)])))).
Proof.
  split; [|split].
  - intros txs. apply withdraw_successes_le_1.
  - intros env p root rcp t. apply withdraw_success_spends.
  - intros Hh. split.
    + intros txs. by apply run_grows.
    + intros env p root rcp t. split; [by apply withdraw_spent_fails|].
      intros Hp Hs Hr. rewrite withdraw_runs. unfold withdraw_result.
      rewrite Hp, Hs, Hh. apply Z.eqb_neq in Hr. rewrite Hr. reflexivity.
Qed.

Lemma C1_nullifier_spent_at_most_once_witness :
  mapping_get (nullifiers withdrawn) 7 = true
  /\ withdraw placeholder_env zero_proof 0 7 77 withdrawn []
     = Revert (Reason "Nullifier used") [EvStore (WStatus _ENTERED)].
Proof.
  split; [vm_compute; reflexivity|].
  destruct (C1_nullifier_spent_at_most_once withdrawn 7) as (_ & _ & H).
  destruct H as [_ H]; [vm_compute; reflexivity|].
  apply (H placeholder_env zero_proof 0 77 []);
    [vm_compute; reflexivity | vm_compute; reflexivity | discriminate].
Defined.

(** ** C2: deposits and the root history *)

(** C2, counterexample.  The deposit of commitment 42 into the freshly
    deployed contract succeeds and the root history is the same list
    afterwards: no root was recorded. *)
Lemma C2_counterexample :
  succeeds (execute first_deposit genesis) = true
  /\ merkleRoots (step genesis first_deposit) = merkleRoots genesis
  /\ forall r, merkleRoots (step genesis first_deposit)
               <> merkleRoots genesis ++ [r].
Proof.
  split; [vm_compute; reflexivity|].
  split; [vm_compute; reflexivity|].
  intros r. vm_compute. discriminate.
Qed.

Lemma step_keeps_roots s x :
  (forall r, tx_call x <> CallAddMerkleRoot r) ->
  merkleRoots (step s x) = merkleRoots s.
Proof.
  intros Hx. unfold step, execute. destruct x as [env m c].
  cbn [tx_env tx_msg tx_call] in *.
  destruct c as [v cm|p root nh rcp|r| | |to|n|]; cbn [dispatch].
  - rewrite deposit_runs. unfold deposit_result, exited, entered.
    crunch; cbn [commit]; mred; auto.
  - rewrite withdraw_runs.
    unfold withdraw_result, exited, entered, spent_state, transfer_ok.
    crunch; cbn [commit]; mred; auto.
  - by destruct (Hx r).
  - unfold pause. run_monad. crunch; cbn [commit]; mred; auto.
  - unfold unpause. run_monad. crunch; cbn [commit]; mred; auto.
  - unfold emergencyWithdraw. run_monad. crunch; cbn [commit]; mred; auto.
  - unfold transferOwnership. run_monad. crunch; cbn [commit]; mred; auto.
  - unfold renounceOwnership. run_monad. crunch; cbn [commit]; mred; auto.
Qed.

(** C2, amended.  A successful deposit records the commitment and leaves
    the root history unchanged; so does every call other than
    [addMerkleRoot].  The root history grows only through [addMerkleRoot],
    which, called by the owner, appends exactly the given root,
    unconditionally, and which reverts for every other caller. *)
Theorem C2_roots_recorded_by_owner_only (s : State) :
  (forall m v c t s' t',
     deposit m v c s t = Ok tt s' t' ->
     merkleRoots s' = merkleRoots s
     /\ mapping_get (commitments s') c = true)
  /\ (forall x, (forall r, tx_call x <> CallAddMerkleRoot r) ->
                merkleRoots (step s x) = merkleRoots s)
  /\ (forall m r t,
        _owner s = msg_sender m ->
        exists s',
          addMerkleRoot m r s t
          = Ok tt s' (t ++ [EvStore (WPushRoot r);
                            EvEmit (MerkleRootUpdated r)])
          /\ merkleRoots s' = merkleRoots s ++ [r])
  /\ (forall m r t,
        _owner s <> msg_sender m ->
        addMerkleRoot m r s t
        = Revert (Reason "Ownable: caller is not the owner") t).
Proof.
  split; [|split; [|split]].
  - intros m v c t s' t'. rewrite deposit_runs.
    unfold deposit_result, exited, entered.
    crunch; try discriminate. intros [= <- _]. mred.
    split; [reflexivity|]. rewrite mapping_get_insert.
    by rewrite Z.eqb_refl.
  - apply step_keeps_roots.
  - intros m r t Ho. apply Z.eqb_eq in Ho.
    unfold addMerkleRoot. run_monad. rewrite Ho.
    eexists. split; [rewrite <- app_assoc; reflexivity | reflexivity].
  - intros m r t Ho. apply Z.eqb_neq in Ho.
    unfold addMerkleRoot. run_monad. by rewrite Ho.
Qed.

Lemma C2_roots_recorded_by_owner_only_witness :
  merkleRoots (step genesis first_deposit) = merkleRoots genesis
  /\ exists s',
       addMerkleRoot admin 9 genesis []
       = Ok tt s' [EvStore (WPushRoot 9); EvEmit (MerkleRootUpdated 9)]
       /\ merkleRoots s' = [0; 9].
Proof.
  destruct (C2_roots_recorded_by_owner_only genesis) as (_ & H2 & H3 & _).
  split.
  - apply H2. intros r. discriminate.
  - apply (H3 admin 9 []). reflexivity.
Defined.

(** ** C3: the order of the checks of [withdraw] *)

(** C3. In a call that the pause gate and the reentrancy guard let in, the
    preconditions are checked in the order recipient, nullifier, root,
    proof, and the call reverts with the message of the first one that
    fails.  The verifier is called exactly when the first three checks
    pass: a withdrawal against a root that was never recorded reverts with
    "Invalid root" whatever the verifier would answer, without calling
    it. *)
Theorem C3_withdraw_check_order (env : Env) (p : Proof)
    (root nh : bytes32) (rcp : address) (s : State) (t : list Event) :
  _paused s = false ->
  _status s = _NOT_ENTERED ->
  let r := withdraw env p root nh rcp s t in
  let t1 := t ++ [EvStore (WStatus _ENTERED)] in
  let inputs := [root; nh; rcp] in
  (rcp = 0 -> r = Revert (Reason "Invalid recipient") t1)
  /\ (rcp <> 0 -> mapping_get (nullifiers s) nh = true ->
      r = Revert (Reason "Nullifier used") t1)
  /\ (rcp <> 0 -> mapping_get (nullifiers s) nh = false ->
      isValidRoot s root = false ->
      r = Revert (Reason "Invalid root") t1)
  /\ (rcp <> 0 -> mapping_get (nullifiers s) nh = false ->
      isValidRoot s root = true ->
      verifyProof env (verifier s) p inputs = Returned false ->
      r = Revert (Reason "Invalid proof")
            (t1 ++ [EvVerify (verifier s) p inputs (Returned false)]))
  /\ (verifier_consulted (trace_of (withdraw env p root nh rcp s [])) = true
      <-> rcp <> 0 /\ mapping_get (nullifiers s) nh = false
          /\ isValidRoot s root = true).
Proof.
  intros Hp Hs r t1 inputs. subst r t1 inputs.
  rewrite !withdraw_runs. unfold withdraw_result. rewrite Hp, Hs.
  change (_NOT_ENTERED =? _ENTERED) with false. cbv iota.
  split; [|split; [|split; [|split]]].
  - intros ->. reflexivity.
  - intros Hr Hn. apply Z.eqb_neq in Hr. by rewrite Hr, Hn.
  - intros Hr Hn Hv. apply Z.eqb_neq in Hr. by rewrite Hr, Hn, Hv.
  - intros Hr Hn Hv Hf. apply Z.eqb_neq in Hr.
    rewrite Hr, Hn, Hv. cbn [negb]. cbv zeta. by rewrite Hf.
  - destruct (Z.eqb_spec rcp 0) as [->|Hr].
    { cbn. split; [discriminate | intros [H _]; by destruct H]. }
    destruct (mapping_get (nullifiers s) nh).
    { cbn. split; [discriminate | intros (_ & H & _); discriminate]. }
    destruct (isValidRoot s root).
    2:{ cbn. split; [discriminate | intros (_ & _ & H); discriminate]. }
    cbn [negb]. cbv zeta.
    split; [auto|intros _].
    destruct (verifyProof env (verifier s) p [root; nh; rcp]) as [[|]|d];
      try reflexivity.
    destruct (transfer_ok env (spent_state s nh) rcp DEPOSIT_AMOUNT);
      reflexivity.
Qed.

Lemma C3_withdraw_check_order_witness :
  withdraw placeholder_env zero_proof 12345 8 77 funded []
  = Revert (Reason "Invalid root") [EvStore (WStatus _ENTERED)].
Proof.
  destruct (C3_withdraw_check_order placeholder_env zero_proof 12345 8 77
              funded []) as (_ & _ & H & _);
    [vm_compute; reflexivity | vm_compute; reflexivity |].
  apply H; [discriminate | vm_compute; reflexivity | vm_compute; reflexivity].
Defined.

(** ** C4: the nullifier is spent before the transfer *)

(** C4. In every execution of [withdraw], the transfer to the recipient is
    attempted only immediately after the write that marks the nullifier
    spent, and that write is always followed by the transfer: the storage
    the callee can observe has the nullifier spent and the reentrancy guard
    entered, so no withdrawal and no deposit can succeed from it.  No event
    after the transfer writes the nullifier registry, the commitment set or
    the root history.  A call that passes the four checks does reach this
    phase. *)
Theorem C4_spent_before_transfer (env : Env) (p : Proof)
    (root nh : bytes32) (rcp : address) (s : State) :
  let tr := trace_of (withdraw env p root nh rcp s []) in
  (forall (i : nat) to amount seen sent,
     tr !! i = Some (EvCall to amount seen sent) ->
     to = rcp /\ amount = DEPOSIT_AMOUNT
     /\ (exists j, i = S j /\ tr !! j = Some (EvStore (WNullifier nh true)))
     /\ mapping_get (nullifiers seen) nh = true
     /\ _status seen = _ENTERED
     /\ (forall env' p' root' nh' rcp' t',
           succeeds (withdraw env' p' root' nh' rcp' seen t') = false)
     /\ (forall m' v' c' t', succeeds (deposit m' v' c' seen t') = false)
     /\ (forall (k : nat) e, (i < k)%nat -> tr !! k = Some e ->
           mutates_registry e = false))
  /\ (forall (j : nat) v,
        tr !! j = Some (EvStore (WNullifier nh v)) ->
        v = true
        /\ exists sent,
             tr !! S j
             = Some (EvCall rcp DEPOSIT_AMOUNT (spent_state s nh) sent))
  /\ (_paused s = false -> _status s = _NOT_ENTERED -> rcp <> 0 ->
      mapping_get (nullifiers s) nh = false -> isValidRoot s root = true ->
      verifyProof env (verifier s) p [root; nh; rcp] = Returned true ->
      tr !! 2%nat = Some (EvStore (WNullifier nh true))).
Proof.
  intros tr. subst tr. rewrite withdraw_runs.
  split; [|split].
  - intros i to amount seen sent.
    unfold withdraw_result.
    crunch; cbn [trace_of app]; intros H; no_such_event H i;
      injection H as <- <- <- _;
      (repeat split;
       [ by exists 2%nat
       | unfold spent_state, entered; mred; rewrite mapping_get_insert;
         by rewrite Z.eqb_refl
       | intros; by apply guard_rejects_withdraw
       | intros; by apply guard_rejects_deposit
       | intros k e Hk He;
         do 4 (destruct k as [|k]; [lia|]);
         repeat (destruct k as [|k]; cbn in He; try discriminate He;
                 try (injection He as <-; reflexivity)) ]).
  - intros j v. unfold withdraw_result.
    crunch; cbn [trace_of app]; intros H; no_such_event H j;
      injection H as <-; (split; [reflexivity | eexists; reflexivity]).
  - intros Hp Hs Hr Hn Hv Hok. unfold withdraw_result.
    apply Z.eqb_neq in Hr. rewrite Hp, Hs, Hr, Hn, Hv.
    change (_NOT_ENTERED =? _ENTERED) with false. cbn [negb]. cbv zeta.
    rewrite Hok. by destruct (transfer_ok _ _ _ _).
Qed.

Lemma C4_spent_before_transfer_witness :
  trace_of (withdraw placeholder_env zero_proof 0 7 77 funded []) !! 3%nat
  = Some (EvCall 77 DEPOSIT_AMOUNT (spent_state funded 7) true)
  /\ mapping_get (nullifiers (spent_state funded 7)) 7 = true.
Proof.
  split; [vm_compute; reflexivity|].
  destruct (C4_spent_before_transfer placeholder_env zero_proof 0 7 77 funded)
    as (H & _ & _).
  apply (H 3%nat 77 DEPOSIT_AMOUNT (spent_state funded 7) true).
  vm_compute. reflexivity.
Defined.

(** ** C7: a verifier that throws *)

(** C7, counterexample.  With the recipient non-null, the nullifier unspent
    and the root valid, a verifier that throws makes [withdraw] revert with
    the verifier's own data: the error is not "Invalid proof". *)
Lemma C7_counterexample :
  mapping_get (nullifiers funded) 7 = false
  /\ isValidRoot funded 0 = true
  /\ withdraw throwing_env zero_proof 0 7 77 funded []
     = Revert (Bubbled "verifier-gte-snark-scalar-field")
         [EvStore (WStatus _ENTERED);
          EvVerify 2 zero_proof [0; 7; 77]
            (Threw "verifier-gte-snark-scalar-field")]
  /\ reason_of (withdraw throwing_env zero_proof 0 7 77 funded [])
     <> Some (Reason "Invalid proof").
Proof.
  repeat split; try (vm_compute; reflexivity).
  vm_compute. discriminate.
Qed.

(** C7, amended.  For every withdraw call whose first three checks pass:
    if the verifier returns [false] the call fails with "Invalid proof"; if
    the verifier throws, [withdraw] does not catch it and the call fails
    with the verifier's revert data.  In both cases the storage is left as
    it was, the nullifier stays unspent and no transfer is attempted. *)
Theorem C7_verifier_failure (env : Env) (p : Proof)
    (root nh : bytes32) (rcp : address) (s : State) (t : list Event) :
  _paused s = false ->
  _status s = _NOT_ENTERED ->
  rcp <> 0 ->
  mapping_get (nullifiers s) nh = false ->
  isValidRoot s root = true ->
  let r := withdraw env p root nh rcp s t in
  let answer := verifyProof env (verifier s) p [root; nh; rcp] in
  (answer = Returned false -> reason_of r = Some (Reason "Invalid proof"))
  /\ (forall data, answer = Threw data -> reason_of r = Some (Bubbled data))
  /\ (answer <> Returned true ->
      commit s r = s
      /\ trace_of r
         = t ++ [EvStore (WStatus _ENTERED);
                 EvVerify (verifier s) p [root; nh; rcp] answer]).
Proof.
  intros Hp Hs Hr Hn Hv r answer. subst r answer.
  rewrite withdraw_runs. unfold withdraw_result.
  apply Z.eqb_neq in Hr. rewrite Hp, Hs, Hr, Hn, Hv.
  change (_NOT_ENTERED =? _ENTERED) with false. cbn [negb]. cbv zeta.
  destruct (verifyProof env (verifier s) p [root; nh; rcp]) as [[|]|d].
  - repeat split; try discriminate; congruence.
  - repeat split; try discriminate.
    cbn [trace_of]. rewrite <- app_assoc. reflexivity.
  - repeat split; try discriminate; cbn [reason_of trace_of];
      try congruence.
    rewrite <- app_assoc. reflexivity.
Qed.

Lemma C7_verifier_failure_witness :
  reason_of (withdraw throwing_env zero_proof 0 7 77 funded [])
  = Some (Bubbled "verifier-gte-snark-scalar-field").
Proof.
  destruct (C7_verifier_failure throwing_env zero_proof 0 7 77 funded [])
    as (_ & H & _);
    [vm_compute; reflexivity | vm_compute; reflexivity | discriminate
    | vm_compute; reflexivity | vm_compute; reflexivity |].
  apply H. reflexivity.
Defined.

(** ** C8: the effect of a successful withdrawal *)

(** C8, counterexample.  On the freshly deployed contract, which holds no
    ether, the recipient is non-null, nullifier hash 7 is unspent, the
    genesis root 0 is valid and the verifier accepts the proof; the
    withdrawal nevertheless fails, on the transfer. *)
Lemma C8_counterexample :
  mapping_get (nullifiers genesis) 7 = false
  /\ isValidRoot genesis 0 = true
  /\ verifyProof placeholder_env (verifier genesis) zero_proof [0; 7; 77]
     = Returned true
  /\ reason_of (withdraw placeholder_env zero_proof 0 7 77 genesis [])
     = Some (Reason "Transfer failed")
  /\ succeeds (withdraw placeholder_env zero_proof 0 7 77 genesis []) = false.
Proof. repeat split; vm_compute; reflexivity. Qed.

(** C8, amended.  For every withdraw call in which all four preconditions
    hold: the verifier is called once, with the public inputs
    [root; nullifierHash; recipient] in that order.  If the transfer goes
    through (the custody covers the amount, the recipient is not the mixer
    itself and accepts the ether), the call succeeds, the nullifier hash is
    spent afterwards, exactly [DEPOSIT_AMOUNT] is paid to the recipient and
    leaves the custody, and nothing else in the registries changes.  If the
    transfer does not go through, the call fails with "Transfer failed". *)
Theorem C8_withdraw_effect (env : Env) (p : Proof)
    (root nh : bytes32) (rcp : address) (s : State) :
  _paused s = false ->
  _status s = _NOT_ENTERED ->
  rcp <> 0 ->
  mapping_get (nullifiers s) nh = false ->
  isValidRoot s root = true ->
  verifyProof env (verifier s) p [root; nh; rcp] = Returned true ->
  let r := withdraw env p root nh rcp s [] in
  let called := EvVerify (verifier s) p [root; nh; rcp] (Returned true) in
  filter (fun e => is_verify e = true) (trace_of r) = [called]
  /\ (DEPOSIT_AMOUNT <= balance s -> rcp <> self env ->
      accepts env rcp DEPOSIT_AMOUNT = true ->
      exists s',
        r = Ok tt s'
              [EvStore (WStatus _ENTERED); called;
               EvStore (WNullifier nh true);
               EvCall rcp DEPOSIT_AMOUNT (spent_state s nh) true;
               EvEmit (Withdrawal rcp DEPOSIT_AMOUNT nh);
               EvStore (WStatus _NOT_ENTERED)]
        /\ mapping_get (nullifiers s') nh = true
        /\ paid_to (trace_of r) rcp = DEPOSIT_AMOUNT
        /\ balance s' = balance s - DEPOSIT_AMOUNT
        /\ (forall h, h <> nh ->
              mapping_get (nullifiers s') h = mapping_get (nullifiers s) h)
        /\ commitments s' = commitments s
        /\ merkleRoots s' = merkleRoots s)
  /\ (transfer_ok env (spent_state s nh) rcp DEPOSIT_AMOUNT = false ->
      r = Revert (Reason "Transfer failed")
            [EvStore (WStatus _ENTERED); called;
             EvStore (WNullifier nh true);
             EvCall rcp DEPOSIT_AMOUNT (spent_state s nh) false]).
Proof.
  intros Hp Hs Hr Hn Hv Hok r called. subst r called.
  rewrite withdraw_runs. unfold withdraw_result.
  apply Z.eqb_neq in Hr. rewrite Hp, Hs, Hr, Hn, Hv.
  change (_NOT_ENTERED =? _ENTERED) with false. cbn [negb]. cbv zeta.
  rewrite Hok. split; [|split].
  - by destruct (transfer_ok _ _ _ _).
  - intros Hb Hself Hacc.
    assert (Hsent : transfer_ok env (spent_state s nh) rcp DEPOSIT_AMOUNT
                    = true).
    { unfold transfer_ok, spent_state, entered. mred.
      apply Z.leb_le in Hb. apply Z.eqb_neq in Hself.
      by rewrite Hb, Hself, Hacc. }
    rewrite Hsent. eexists. split; [reflexivity|].
    unfold exited, spent_state, entered. mred. cbn [trace_of app paid_to].
    rewrite Z.eqb_refl, mapping_get_insert, Z.eqb_refl.
    repeat split; try lia.
    intros h Hh. apply Z.eqb_neq in Hh.
    by rewrite mapping_get_insert, Hh.
  - intros Hsent. by rewrite Hsent.
Qed.

Lemma C8_withdraw_effect_witness :
  exists s',
    withdraw placeholder_env zero_proof 0 7 77 funded []
    = Ok tt s'
        [EvStore (WStatus _ENTERED);
         EvVerify 2 zero_proof [0; 7; 77] (Returned true);
         EvStore (WNullifier 7 true);
         EvCall 77 DEPOSIT_AMOUNT (spent_state funded 7) true;
         EvEmit (Withdrawal 77 DEPOSIT_AMOUNT 7);
         EvStore (WStatus _NOT_ENTERED)]
    /\ mapping_get (nullifiers s') 7 = true
    /\ balance s' = balance funded - DEPOSIT_AMOUNT.
Proof.
  destruct (C8_withdraw_effect placeholder_env zero_proof 0 7 77 funded)
    as (_ & H & _);
    [vm_compute; reflexivity | vm_compute; reflexivity | discriminate
    | vm_compute; reflexivity | vm_compute; reflexivity | reflexivity |].
  destruct H as (s' & Hr & Hn & _ & Hb & _);
    [vm_compute; discriminate | vm_compute; discriminate | reflexivity |].
  exists s'. repeat split; assumption.
Defined.

(** ** C10: withdrawals do not read the commitment set *)



(** ** C6: when a deposit succeeds *)

Lemma run_not_entered txs : forall s,
  _status s = _NOT_ENTERED -> _status (run s txs) = _NOT_ENTERED.
Proof.
  induction txs as [|x txs IH]; intros s Hs; cbn; [exact Hs|].
  apply IH. by apply step_not_entered.
Qed.

Lemma deposit_success_state m v c s t :
  succeeds (deposit m v c s t) = true ->
  _status (commit s (deposit m v c s t)) = _NOT_ENTERED
  /\ mapping_get (commitments (commit s (deposit m v c s t))) c = true
  /\ balance (commit s (deposit m v c s t)) = balance s + v
  /\ nullifiers (commit s (deposit m v c s t)) = nullifiers s
  /\ merkleRoots (commit s (deposit m v c s t)) = merkleRoots s.
Proof.
  rewrite deposit_runs. unfold deposit_result, exited, entered.
  crunch; cbn [succeeds commit]; try discriminate. intros _. mred.
  rewrite mapping_get_insert, Z.eqb_refl. repeat split.
Qed.

(** C6. [deposit] succeeds if and only if the system is not paused (and
    the call is not a reentrant one), the value sent equals
    [DEPOSIT_AMOUNT] and the commitment is not stored yet.  A paused system
    refuses every deposit with "Pausable: paused".  Otherwise the deposit
    fails with "Incorrect deposit amount" when the value differs, and, the
    amount being checked first, with "Commitment exists" when the commitment
    is stored: after a successful deposit, the same deposit fails with
    "Commitment exists" in every later unpaused state.  On success the
    commitment is stored, the custody balance has grown by exactly the value
    sent, and the nullifier registry and the root history are as before; on
    failure nothing changes. *)
Theorem C6_deposit_succeeds_iff (m : Msg) (v : uint256) (c : bytes32)
    (s : State) (t : list Event) :
  let r := deposit m v c s t in
  (succeeds r = true
   <-> _paused s = false /\ _status s <> _ENTERED
       /\ v = DEPOSIT_AMOUNT /\ mapping_get (commitments s) c = false)
  /\ (_paused s = true -> reason_of r = Some (Reason "Pausable: paused"))
  /\ (_paused s = false -> _status s <> _ENTERED -> v <> DEPOSIT_AMOUNT ->
      reason_of r = Some (Reason "Incorrect deposit amount"))
  /\ (_paused s = false -> _status s <> _ENTERED -> v = DEPOSIT_AMOUNT ->
      mapping_get (commitments s) c = true ->
      reason_of r = Some (Reason "Commitment exists"))
  /\ (succeeds r = true ->
      mapping_get (commitments (commit s r)) c = true
      /\ balance (commit s r) = balance s + v
      /\ nullifiers (commit s r) = nullifiers s
      /\ merkleRoots (commit s r) = merkleRoots s
      /\ forall txs m' t',
           _paused (run (commit s r) txs) = false ->
           reason_of (deposit m' v c (run (commit s r) txs) t')
           = Some (Reason "Commitment exists"))
  /\ (succeeds r = false -> commit s r = s).
Proof.
  intros r.
  assert (Hiff : succeeds r = true
                 <-> _paused s = false /\ _status s <> _ENTERED
                     /\ v = DEPOSIT_AMOUNT
                     /\ mapping_get (commitments s) c = false).
  { subst r. rewrite deposit_runs. unfold deposit_result. cbv zeta.
    destruct (_paused s); cbn [succeeds].
    { split; [discriminate | intros [H _]; discriminate]. }
    destruct (Z.eqb_spec (_status s) _ENTERED) as [Hs|Hs]; cbn [succeeds].
    { split; [discriminate | intros (_ & H & _); contradiction]. }
    destruct (Z.eqb_spec v DEPOSIT_AMOUNT) as [->|Hv]; cbn [negb succeeds].
    - destruct (mapping_get (commitments s) c); cbn [succeeds].
      + split; [discriminate | intros (_ & _ & _ & H); discriminate].
      + split; auto.
    - split; [discriminate | intros (_ & _ & H & _); contradiction]. }
  subst r.
  split; [exact Hiff|]. split; [|split; [|split; [|split]]].
  - intros Hp. rewrite deposit_runs. unfold deposit_result. by rewrite Hp.
  - intros Hp Hs Hv. rewrite deposit_runs. unfold deposit_result.
    apply Z.eqb_neq in Hs, Hv. by rewrite Hp, Hs, Hv.
  - intros Hp Hs -> Hc. rewrite deposit_runs. unfold deposit_result.
    apply Z.eqb_neq in Hs. rewrite Hp, Hs, Hc. reflexivity.
  - intros Hok.
    destruct (deposit_success_state m v c s t Hok)
      as (Hst & Hc & Hb & Hn & Hr).
    repeat split; try assumption.
    intros txs m' t' Hp'.
    apply Hiff in Hok as (_ & _ & -> & _).
    rewrite deposit_runs. unfold deposit_result.
    rewrite Hp', (run_not_entered txs _ Hst).
    rewrite (proj1 (proj2 (run_grows txs _)) c Hc). reflexivity.
  - intros Hfail. by destruct (deposit m v c s t).
Qed.

Lemma C6_deposit_succeeds_iff_witness :
  succeeds (deposit user DEPOSIT_AMOUNT 42 genesis []) = true
  /\ reason_of (deposit user DEPOSIT_AMOUNT 43 funded_paused [])
     = Some (Reason "Pausable: paused")
  /\ reason_of (deposit user DEPOSIT_AMOUNT 42 funded [])
     = Some (Reason "Commitment exists")
  /\ reason_of (deposit user 50000000000000000 43 funded [])
     = Some (Reason "Incorrect deposit amount").
Proof.
  split; [|split; [|split]].
  - destruct (C6_deposit_succeeds_iff user DEPOSIT_AMOUNT 42 genesis [])
      as (H & _).
    apply H. repeat split; try reflexivity. vm_compute. discriminate.
  - destruct (C6_deposit_succeeds_iff user DEPOSIT_AMOUNT 43 funded_paused [])
      as (_ & H & _).
    apply H. vm_compute. reflexivity.
  - destruct (C6_deposit_succeeds_iff user DEPOSIT_AMOUNT 42 funded [])
      as (_ & _ & _ & H & _).
    apply H; [vm_compute; reflexivity | vm_compute; discriminate
             | reflexivity | vm_compute; reflexivity].
  - destruct (C6_deposit_succeeds_iff user 50000000000000000 43 funded [])
      as (_ & _ & H & _).
    apply H; [vm_compute; reflexivity | vm_compute; discriminate
             | discriminate].
Defined.

(** ** C5: the contract has no capacity bound *)

Lemma run_cons s x txs : run s (x :: txs) = run (step s x) txs.
Proof. reflexivity. Qed.

Lemma deposit_tx_step start s :
  _paused s = false ->
  _status s = _NOT_ENTERED ->
  mapping_get (commitments s) start = false ->
  succeeds (execute (deposit_tx start) s) = true
  /\ step s (deposit_tx start)
     = exited (apply_write (WCommitment start true)
               (entered (set_balance s (balance s + DEPOSIT_AMOUNT)))).
Proof.
  intros Hp Hs Hc. unfold step, execute, deposit_tx.
  cbn [tx_env tx_msg tx_call dispatch].
  rewrite deposit_runs. unfold deposit_result.
  rewrite Hp, Hs, Hc. split; reflexivity.
Qed.

Lemma deposits_all_succeed n : forall start s,
  _paused s = false ->
  _status s = _NOT_ENTERED ->
  (forall c, start <= c -> mapping_get (commitments s) c = false) ->
  successes s (deposits start n) = n
  /\ _paused (run s (deposits start n)) = false
  /\ _status (run s (deposits start n)) = _NOT_ENTERED
  /\ (forall c, start + Z.of_nat n <= c ->
        mapping_get (commitments (run s (deposits start n))) c = false).
Proof.
  induction n as [|n IH]; intros start s Hp Hs Hfree.
  - cbn [deposits successes run fold_left]. repeat split; auto.
    intros c Hc. apply Hfree. lia.
  - cbn [deposits successes]. rewrite run_cons.
    destruct (deposit_tx_step start s Hp Hs) as [Hok Hstep];
      [apply Hfree; lia|].
    rewrite Hok, Hstep.
    destruct (IH (start + 1)
                (exited (apply_write (WCommitment start true)
                   (entered (set_balance s (balance s + DEPOSIT_AMOUNT))))))
      as (Hcount & Hp' & Hs' & Hfree').
    + exact Hp.
    + reflexivity.
    + intros c Hc. unfold exited, entered. mred.
      rewrite mapping_get_insert.
      destruct (Z.eqb_spec c start); [lia | apply Hfree; lia].
    + rewrite Hcount.
      split; [reflexivity|]. split; [exact Hp'|]. split; [exact Hs'|].
      intros c Hc. apply Hfree'. lia.
Qed.

(** C5, counterexample.  From the freshly deployed contract, the deposits
    of the commitments 0, 1, ..., 2^20 - 1 all succeed, and so does the
    next one, of commitment 2^20: nothing fails for lack of capacity. *)
Lemma C5_counterexample :
  successes genesis (deposits 0 (Z.to_nat (2 ^ 20))) = Z.to_nat (2 ^ 20)
  /\ succeeds (execute (deposit_tx (2 ^ 20))
                 (run genesis (deposits 0 (Z.to_nat (2 ^ 20))))) = true.
Proof.
  destruct (deposits_all_succeed (Z.to_nat (2 ^ 20)) 0 genesis)
    as (Hcount & Hp & Hs & Hfree);
    [reflexivity | reflexivity | intros c _; apply mapping_get_empty |].
  split; [exact Hcount|].
  apply deposit_tx_step; [exact Hp | exact Hs |].
  apply Hfree. rewrite Z2Nat.id; lia.
Qed.

(** C5, amended.  The contract keeps no accumulator, leaf index or capacity:
    from deployment any number [n] of deposits of distinct commitments
    succeed one after the other; a deposit of [DEPOSIT_AMOUNT] with a
    commitment that is not stored succeeds in every unpaused state, however
    many commitments are stored; and a deposit that fails fails for one of
    four reasons (paused, reentrant call, wrong amount, commitment stored),
    never for lack of capacity. *)
Theorem C5_no_capacity_bound (n : nat) :
  successes genesis (deposits 0 n) = n
  /\ (forall m c s t,
        _paused s = false -> _status s = _NOT_ENTERED ->
        mapping_get (commitments s) c = false ->
        succeeds (deposit m DEPOSIT_AMOUNT c s t) = true)
  /\ (forall m v c s t e t',
        deposit m v c s t = Revert e t' ->
        In e [Reason "Pausable: paused";
              Reason "ReentrancyGuard: reentrant call";
              Reason "Incorrect deposit amount";
              Reason "Commitment exists"]).
Proof.
  split; [|split].
  - destruct (deposits_all_succeed n 0 genesis) as (Hcount & _);
      [reflexivity | reflexivity | intros c _; apply mapping_get_empty |].
    exact Hcount.
  - intros m c s t Hp Hs Hc. rewrite deposit_runs. unfold deposit_result.
    by rewrite Hp, Hs, Hc.
  - intros m v c s t e t'. rewrite deposit_runs. unfold deposit_result.
    crunch; intros [= <- _]; cbn; tauto.
Qed.

Lemma C5_no_capacity_bound_witness :
  successes genesis (deposits 0 3) = 3%nat
  /\ succeeds (deposit user DEPOSIT_AMOUNT 43 funded []) = true.
Proof.
  destruct (C5_no_capacity_bound 3) as (H1 & H2 & _).
  split; [exact H1|].
  apply H2; vm_compute; reflexivity.
Defined.

(** * The rest of the contract

    The owner's entry points, the view functions and how the entry points
    compose. *)

(** ** How the owner's entry points run *)

Lemma addMerkleRoot_runs m r s t :
  addMerkleRoot m r s t
  = if _owner s =? msg_sender m
    then Ok tt (apply_write (WPushRoot r) s)
           (t ++ [EvStore (WPushRoot r); EvEmit (MerkleRootUpdated r)])
    else Revert (Reason "Ownable: caller is not the owner") t.
Proof.
  unfold addMerkleRoot. run_monad.
  destruct (_owner s =? msg_sender m); [|reflexivity].
  rewrite <- app_assoc. reflexivity.
Qed.

Lemma pause_runs m s t :
  pause m s t
  = if _owner s =? msg_sender m
    then if _paused s
         then Revert (Reason "Pausable: paused") t
         else Ok tt (apply_write (WPaused true) s)
                (t ++ [EvStore (WPaused true); EvEmit (Paused (msg_sender m))])
    else Revert (Reason "Ownable: caller is not the owner") t.
Proof.
  unfold pause. run_monad.
  destruct (_owner s =? msg_sender m); [|reflexivity].
  destruct (_paused s); [reflexivity|]. mred.
  rewrite <- app_assoc. reflexivity.
Qed.

Lemma unpause_runs m s t :
  unpause m s t
  = if _owner s =? msg_sender m
    then if _paused s
         then Ok tt (apply_write (WPaused false) s)
                (t ++ [EvStore (WPaused false);
                       EvEmit (Unpaused (msg_sender m))])
         else Revert (Reason "Pausable: not paused") t
    else Revert (Reason "Ownable: caller is not the owner") t.
Proof.
  unfold unpause. run_monad.
  destruct (_owner s =? msg_sender m); [|reflexivity].
  destruct (_paused s); [|reflexivity]. mred.
  rewrite <- app_assoc. reflexivity.
Qed.

Lemma emergencyWithdraw_runs env m to s t :
  emergencyWithdraw env m to s t
  = if _owner s =? msg_sender m
    then if transfer_ok env s to (balance s)
         then Ok tt (set_balance s (balance s - balance s))
                (t ++ [EvCall to (balance s) s true])
         else Revert (Reason "Emergency withdraw failed")
                (t ++ [EvCall to (balance s) s false])
    else Revert (Reason "Ownable: caller is not the owner") t.
Proof.
  unfold emergencyWithdraw, transfer_ok. run_monad.
  destruct (_owner s =? msg_sender m); [|reflexivity].
  destruct ((balance s <=? balance s) && negb (to =? self env)
            && accepts env to (balance s)); reflexivity.
Qed.

Lemma transferOwnership_runs m n s t :
  transferOwnership m n s t
  = if _owner s =? msg_sender m
    then if n =? 0
         then Revert (Reason "Ownable: new owner is the zero address") t
         else Ok tt (apply_write (WOwner n) s)
                (t ++ [EvStore (WOwner n);
                       EvEmit (OwnershipTransferred (_owner s) n)])
    else Revert (Reason "Ownable: caller is not the owner") t.
Proof.
  unfold transferOwnership, _transferOwnership. run_monad.
  destruct (_owner s =? msg_sender m); [|reflexivity].
  destruct (n =? 0); [reflexivity|]. mred.
  rewrite <- app_assoc. reflexivity.
Qed.

Lemma renounceOwnership_runs m s t :
  renounceOwnership m s t
  = if _owner s =? msg_sender m
    then Ok tt (apply_write (WOwner 0) s)
           (t ++ [EvStore (WOwner 0);
                  EvEmit (OwnershipTransferred (_owner s) 0)])
    else Revert (Reason "Ownable: caller is not the owner") t.
Proof.
  unfold renounceOwnership, _transferOwnership. run_monad.
  destruct (_owner s =? msg_sender m); [|reflexivity].
  rewrite <- app_assoc. reflexivity.
Qed.

(** ** The root history and its views *)

Lemma getCurrentRoot_last s :
  getCurrentRoot s
  = match last (merkleRoots s) with
    | Some r => Returns r
    | None => Panics 17
    end.
Proof.
  unfold getCurrentRoot.
  destruct (merkleRoots s) as [|a l _] using rev_ind; [reflexivity|].
  rewrite last_snoc, length_app. cbn [length].
  destruct (Z.ltb_spec (Z.of_nat (length l + 1) - 1) 0) as [H|_]; [lia|].
  replace (Z.to_nat (Z.of_nat (length l + 1) - 1)) with (length l) by lia.
  by rewrite list_lookup_middle.
Qed.

Lemma reachable_roots_nonempty s :
  reachable s -> exists rest, merkleRoots s = 0 :: rest.
Proof.
  induction 1 as [d v|s x _ [rest IH]]; [by exists []|].
  destruct (step_grows s x) as (_ & _ & [more Hm] & _).
  exists (rest ++ more). by rewrite Hm, IH.
Qed.

(** The closed form of every transaction. *)
Lemma execute_runs x s :
  execute x s
  = match tx_call x with
    | CallDeposit v c => deposit_result (tx_msg x) v c s []
    | CallWithdraw p root nh rcp =>
        withdraw_result (tx_env x) p root nh rcp s []
    | CallAddMerkleRoot r =>
        if _owner s =? msg_sender (tx_msg x)
        then Ok tt (apply_write (WPushRoot r) s)
               [EvStore (WPushRoot r); EvEmit (MerkleRootUpdated r)]
        else Revert (Reason "Ownable: caller is not the owner") []
    | CallPause =>
        if _owner s =? msg_sender (tx_msg x)
        then if _paused s
             then Revert (Reason "Pausable: paused") []
             else Ok tt (apply_write (WPaused true) s)
                    [EvStore (WPaused true);
                     EvEmit (Paused (msg_sender (tx_msg x)))]
        else Revert (Reason "Ownable: caller is not the owner") []
    | CallUnpause =>
        if _owner s =? msg_sender (tx_msg x)
        then if _paused s
             then Ok tt (apply_write (WPaused false) s)
                    [EvStore (WPaused false);
                     EvEmit (Unpaused (msg_sender (tx_msg x)))]
             else Revert (Reason "Pausable: not paused") []
        else Revert (Reason "Ownable: caller is not the owner") []
    | CallEmergencyWithdraw to =>
        if _owner s =? msg_sender (tx_msg x)
        then if transfer_ok (tx_env x) s to (balance s)
             then Ok tt (set_balance s (balance s - balance s))
                    [EvCall to (balance s) s true]
             else Revert (Reason "Emergency withdraw failed")
                    [EvCall to (balance s) s false]
        else Revert (Reason "Ownable: caller is not the owner") []
    | CallTransferOwnership n =>
        if _owner s =? msg_sender (tx_msg x)
        then if n =? 0
             then Revert (Reason "Ownable: new owner is the zero address") []
             else Ok tt (apply_write (WOwner n) s)
                    [EvStore (WOwner n);
                     EvEmit (OwnershipTransferred (_owner s) n)]
        else Revert (Reason "Ownable: caller is not the owner") []
    | CallRenounceOwnership =>
        if _owner s =? msg_sender (tx_msg x)
        then Ok tt (apply_write (WOwner 0) s)
               [EvStore (WOwner 0);
                EvEmit (OwnershipTransferred (_owner s) 0)]
        else Revert (Reason "Ownable: caller is not the owner") []
    end.
Proof.
  by_call x.
  - apply deposit_runs.
  - apply withdraw_runs.
  - apply addMerkleRoot_runs.
  - apply pause_runs.
  - apply unpause_runs.
  - apply emergencyWithdraw_runs.
  - apply transferOwnership_runs.
  - apply renounceOwnership_runs.
Qed.

(** A transaction makes a root valid exactly when it is a successful
    [addMerkleRoot] of that root. *)
Lemma step_isValidRoot s x root :
  isValidRoot (step s x) root
  = isValidRoot s root
    || (is_addMerkleRoot root (tx_call x) && succeeds (execute x s)).
Proof.
  destruct (is_addMerkleRoot root (tx_call x)) eqn:Hadd.
  - destruct x as [env m c]. cbn [tx_call] in Hadd.
    destruct c; cbn [is_addMerkleRoot] in Hadd; try discriminate.
    apply Z.eqb_eq in Hadd as ->.
    unfold step. rewrite execute_runs. cbn [tx_call tx_msg].
    destruct (_owner s =? msg_sender m); cbn [commit succeeds andb].
    + unfold isValidRoot. mred. rewrite isValidRoot_from_app. cbn.
      by rewrite Z.eqb_refl.
    + by rewrite orb_false_r.
  - cbn [andb]. rewrite orb_false_r.
    destruct (step_grows s x) as (_ & _ & [more Hm] & _).
    destruct x as [env m c]. cbn [tx_call] in Hadd.
    destruct c as [v cm|p rt nh rcp|r| | |to|n|];
      try (unfold isValidRoot;
           rewrite step_keeps_roots by (intros r; discriminate);
           reflexivity).
    cbn [is_addMerkleRoot] in Hadd.
    unfold step. rewrite execute_runs. cbn [tx_call tx_msg].
    destruct (_owner s =? msg_sender m); cbn [commit]; [|reflexivity].
    unfold isValidRoot. mred. rewrite isValidRoot_from_app. cbn.
    rewrite Hadd. apply orb_false_r.
Qed.

(** X1. [getCurrentRoot] returns the last entry of the root history; on an
    empty history the subtraction [length - 1] underflows and the call
    panics with code 0x11.  In every reachable state the history is not
    empty, so the call returns, and the root it returns is one that
    [isValidRoot] accepts. *)
Theorem X1_getCurrentRoot_returns_last_root (s : State) :
  (merkleRoots s = [] -> getCurrentRoot s = Panics 17)
  /\ (forall r, getCurrentRoot s = Returns r <-> last (getAllRoots s) = Some r)
  /\ (reachable s ->
      exists r, getCurrentRoot s = Returns r /\ isValidRoot s r = true).
Proof.
  rewrite getCurrentRoot_last. unfold getAllRoots.
  split; [|split].
  - by intros ->.
  - intros r. destruct (last (merkleRoots s)); split; congruence.
  - intros Hs. destruct (reachable_roots_nonempty s Hs) as [rest Hr].
    destruct (last (merkleRoots s)) as [r|] eqn:Hl.
    + exists r. split; [reflexivity|].
      apply last_Some in Hl as [l' Hl].
      unfold isValidRoot. rewrite Hl, isValidRoot_from_app. cbn.
      by rewrite Z.eqb_refl, orb_true_r.
    + apply last_None in Hl. congruence.
Qed.

Lemma X1_getCurrentRoot_returns_last_root_witness :
  reachable funded
  /\ exists r, getCurrentRoot funded = Returns r
               /\ isValidRoot funded r = true.
Proof.
  assert (Hfunded : reachable funded) by (repeat constructor).
  split; [exact Hfunded|].
  destruct (X1_getCurrentRoot_returns_last_root funded) as (_ & _ & H).
  apply H. exact Hfunded.
Defined.

(** X2. [addMerkleRoot] called by the owner always succeeds, paused or not,
    and appends the root even when it is already in the history.
    Afterwards the root is the current root, the valid roots are the old
    ones and the new one, and nothing else in the storage has changed. *)
Theorem X2_addMerkleRoot_by_owner (m : Msg) (r : bytes32) (s : State) :
  _owner s = msg_sender m ->
  exists s',
    addMerkleRoot m r s []
    = Ok tt s' [EvStore (WPushRoot r); EvEmit (MerkleRootUpdated r)]
    /\ getAllRoots s' = getAllRoots s ++ [r]
    /\ getCurrentRoot s' = Returns r
    /\ (forall r', isValidRoot s' r' = isValidRoot s r' || (r' =? r))
    /\ nullifiers s' = nullifiers s
    /\ commitments s' = commitments s
    /\ _paused s' = _paused s
    /\ _owner s' = _owner s
    /\ getBalance s' = getBalance s.
Proof.
  intros Ho. apply Z.eqb_eq in Ho.
  rewrite addMerkleRoot_runs, Ho. eexists. split; [reflexivity|].
  split; [reflexivity|]. split; [|split].
  - rewrite getCurrentRoot_last. mred. by rewrite last_snoc.
  - intros r'. unfold isValidRoot. mred. rewrite isValidRoot_from_app. cbn.
    rewrite (Z.eqb_sym r' r). by destruct (r =? r').
  - repeat split.
Qed.

Lemma X2_addMerkleRoot_by_owner_witness :
  exists s',
    addMerkleRoot admin 0 funded_paused []
    = Ok tt s' [EvStore (WPushRoot 0); EvEmit (MerkleRootUpdated 0)]
    /\ getAllRoots s' = [0; 0].
Proof.
  destruct (X2_addMerkleRoot_by_owner admin 0 funded_paused)
    as (s' & Hrun & Hroots & _); [vm_compute; reflexivity|].
  exists s'. split; [exact Hrun|]. rewrite Hroots. vm_compute. reflexivity.
Defined.

(** X3. [isValidRoot(root)] is true exactly when [root] occurs in the list
    that [getAllRoots()] returns; right after deployment this is the case
    for [bytes32(0)] only. *)
Theorem X3_isValidRoot_iff_listed (s : State) (root : bytes32) :
  (isValidRoot s root = true <-> In root (getAllRoots s))
  /\ (forall deployer v,
        isValidRoot (constructor deployer v) root = true <-> root = 0).
Proof.
  split; [apply isValidRoot_from_In|].
  intros deployer v. unfold isValidRoot. rewrite isValidRoot_from_In. cbn.
  split; [intros [H|[]]; by symmetry | intros ->; by left].
Qed.

Lemma X3_isValidRoot_iff_listed_witness :
  In 0 (getAllRoots funded) /\ isValidRoot funded 0 = true.
Proof.
  assert (Hin : In 0 (getAllRoots funded)) by (vm_compute; by left).
  split; [exact Hin|].
  destruct (X3_isValidRoot_iff_listed funded 0) as [[_ H] _].
  apply H. exact Hin.
Defined.

(** X4. Only the owner makes a root valid: a transaction after which a
    root is valid that was not valid before is an [addMerkleRoot] of that
    root sent by the owner, and along a run in which no [addMerkleRoot] of
    the root succeeds the root stays invalid. *)
Theorem X4_only_owner_validates_roots (s : State) (root : bytes32) :
  isValidRoot s root = false ->
  (forall x, isValidRoot (step s x) root = true ->
             tx_call x = CallAddMerkleRoot root
             /\ msg_sender (tx_msg x) = _owner s)
  /\ (forall txs,
        count_successes (is_addMerkleRoot root) s txs = 0%nat ->
        isValidRoot (run s txs) root = false).
Proof.
  intros Hinv. split.
  - intros x. rewrite step_isValidRoot, Hinv. cbn [orb].
    intros [Hadd Hok]%andb_true_iff.
    destruct x as [env m c]. cbn [tx_call tx_msg] in *.
    destruct c; cbn [is_addMerkleRoot] in Hadd; try discriminate.
    apply Z.eqb_eq in Hadd as ->. split; [reflexivity|].
    rewrite execute_runs in Hok. cbn [tx_call tx_msg] in Hok.
    destruct (Z.eqb_spec (_owner s) (msg_sender m)); [by symmetry|].
    discriminate.
  - intros txs. revert s Hinv.
    induction txs as [|x txs IH]; intros s Hinv Hcount; [exact Hinv|].
    cbn [count_successes] in Hcount. rewrite run_cons. apply IH; [|lia].
    rewrite step_isValidRoot, Hinv.
    by destruct (is_addMerkleRoot root (tx_call x) && succeeds (execute x s)).
Qed.

Lemma X4_only_owner_validates_roots_witness :
  isValidRoot funded 9 = false
  /\ isValidRoot
       (run funded [user_tx (CallAddMerkleRoot 9); deposit_tx 43;
                    admin_tx (CallAddMerkleRoot 8)]) 9 = false.
Proof.
  split; [vm_compute; reflexivity|].
  destruct (X4_only_owner_validates_roots funded 9) as [_ H];
    [vm_compute; reflexivity|].
  apply H. vm_compute. reflexivity.
Defined.

(** ** Who may do what *)

(** X5. An account that is not the owner cannot administer the contract:
    its call to [addMerkleRoot], [pause], [unpause], [emergencyWithdraw] (or
    to an ownership function) reverts with "Ownable: caller is not the
    owner" before anything is written or transferred, and whatever it
    calls, the pause flag, the owner, the root history and the verifier
    address stay as they are. *)
Theorem X5_non_owner_cannot_administer (s : State) (x : Tx) :
  msg_sender (tx_msg x) <> _owner s ->
  (is_deposit (tx_call x) = false -> is_withdraw (tx_call x) = false ->
   execute x s = Revert (Reason "Ownable: caller is not the owner") [])
  /\ _paused (step s x) = _paused s
  /\ _owner (step s x) = _owner s
  /\ getAllRoots (step s x) = getAllRoots s
  /\ verifier (step s x) = verifier s.
Proof.
  intros Hno.
  assert (Ho : (_owner s =? msg_sender (tx_msg x)) = false)
    by (apply Z.eqb_neq; congruence).
  unfold step, getAllRoots. rewrite execute_runs.
  destruct x as [env m c]. cbn [tx_call tx_msg tx_env] in *.
  destruct c as [v cm|p root nh rcp|r| | |to|n|];
    cbn [is_deposit is_withdraw]; rewrite ?Ho; cbn [commit];
    try (repeat split; reflexivity).
  - split; [discriminate|].
    unfold deposit_result, exited, entered. crunch; cbn [commit]; mred;
      repeat split; auto.
  - split; [discriminate|].
    unfold withdraw_result, exited, entered, spent_state.
    crunch; cbn [commit]; mred; repeat split; auto.
Qed.

Lemma X5_non_owner_cannot_administer_witness :
  execute (user_tx (CallEmergencyWithdraw 5)) funded
  = Revert (Reason "Ownable: caller is not the owner") []
  /\ _paused (step funded (user_tx CallPause)) = false.
Proof.
  split.
  - destruct (X5_non_owner_cannot_administer funded
                (user_tx (CallEmergencyWithdraw 5))) as [H _];
      [vm_compute; discriminate|].
    apply H; reflexivity.
  - destruct (X5_non_owner_cannot_administer funded (user_tx CallPause))
      as (_ & H & _); [vm_compute; discriminate|].
    rewrite H. vm_compute. reflexivity.
Defined.

(** X6. While the contract is paused, every [deposit] and every [withdraw]
    reverts with "Pausable: paused" before any check of its own: no
    commitment is stored, no nullifier is spent, the verifier is not called
    and nothing is paid.  No transaction changes the nullifier registry or
    the commitment set, and the only transaction that lifts the pause is
    [unpause] sent by the owner. *)
Theorem X6_paused_blocks_deposit_and_withdraw (s : State) :
  _paused s = true ->
  (forall m v c,
     deposit m v c s [] = Revert (Reason "Pausable: paused") [EvReceive v])
  /\ (forall env p root nh rcp,
        withdraw env p root nh rcp s [] = Revert (Reason "Pausable: paused") [])
  /\ (forall x, nullifiers (step s x) = nullifiers s
                /\ commitments (step s x) = commitments s)
  /\ (forall x, _paused (step s x) = false ->
                tx_call x = CallUnpause /\ msg_sender (tx_msg x) = _owner s).
Proof.
  intros Hp. split; [|split; [|split]].
  - intros m v c. rewrite deposit_runs. unfold deposit_result. by rewrite Hp.
  - intros env p root nh rcp. rewrite withdraw_runs. unfold withdraw_result.
    by rewrite Hp.
  - intros x. unfold step. rewrite execute_runs.
    destruct x as [env m c]. cbn [tx_call tx_msg tx_env].
    destruct c as [v cm|p root nh rcp|r| | |to|n|];
      unfold deposit_result, withdraw_result; rewrite ?Hp;
      crunch; cbn [commit]; mred; split; reflexivity.
  - intros x. unfold step. rewrite execute_runs.
    destruct x as [env m c]. cbn [tx_call tx_msg tx_env].
    destruct c as [v cm|p root nh rcp|r| | |to|n|];
      unfold deposit_result, withdraw_result; rewrite ?Hp;
      crunch; cbn [commit]; mred; try congruence.
    intros _. split; [reflexivity|].
    symmetry. by apply Z.eqb_eq.
Qed.

Lemma X6_paused_blocks_deposit_and_withdraw_witness :
  _paused funded_paused = true
  /\ withdraw placeholder_env zero_proof 0 7 77 funded_paused []
     = Revert (Reason "Pausable: paused") [].
Proof.
  split; [vm_compute; reflexivity|].
  destruct (X6_paused_blocks_deposit_and_withdraw funded_paused)
    as (_ & H & _); [vm_compute; reflexivity|].
  apply H.
Defined.

(** X7. For the owner, [pause] on an unpaused contract sets the flag and a
    following [unpause] restores the storage exactly as it was.  Pausing a
    paused contract reverts with "Pausable: paused" and unpausing an
    unpaused one with "Pausable: not paused". *)
Theorem X7_pause_unpause_round_trip (env : Env) (m : Msg) (s : State) :
  _owner s = msg_sender m ->
  _paused s = false ->
  let pausing := mkTx env m CallPause in
  let unpausing := mkTx env m CallUnpause in
  _paused (step s pausing) = true
  /\ step (step s pausing) unpausing = s
  /\ execute pausing (step s pausing) = Revert (Reason "Pausable: paused") []
  /\ execute unpausing s = Revert (Reason "Pausable: not paused") [].
Proof.
  intros Ho Hp pausing unpausing. subst pausing unpausing.
  apply Z.eqb_eq in Ho.
  unfold step. rewrite !execute_runs. cbn [tx_call tx_msg tx_env].
  rewrite Ho, Hp. cbn [commit]. mred. rewrite ?Ho. cbn [commit]. mred.
  repeat split.
  destruct s. cbn in *. by subst.
Qed.

Lemma X7_pause_unpause_round_trip_witness :
  step (step funded (admin_tx CallPause)) (admin_tx CallUnpause) = funded.
Proof.
  apply (X7_pause_unpause_round_trip placeholder_env admin funded);
    vm_compute; reflexivity.
Defined.

(** ** The custody *)

(** X8. [emergencyWithdraw] called by the owner offers the whole balance
    to [to], whether the contract is paused or not and whatever the state
    of the reentrancy guard.  The call succeeds exactly when [to] is not the
    mixer itself and accepts the ether, and [to] is then paid the balance
    the contract held when it was called.  Otherwise the call reverts with
    "Emergency withdraw failed" and the storage is as before.  (The storage
    after a successful call is not described here: the function is not
    guarded, so the recipient may call [deposit] or [withdraw] while it is
    being paid.) *)
Theorem X8_emergencyWithdraw_offers_whole_balance (env : Env) (m : Msg)
    (to : address) (s : State) :
  _owner s = msg_sender m ->
  let r := emergencyWithdraw env m to s [] in
  (succeeds r = true
   <-> to <> self env /\ accepts env to (getBalance s) = true)
  /\ (succeeds r = true -> paid_to (trace_of r) to = getBalance s)
  /\ (succeeds r = false ->
      reason_of r = Some (Reason "Emergency withdraw failed")
      /\ commit s r = s).
Proof.
  intros Ho r. subst r. apply Z.eqb_eq in Ho.
  rewrite emergencyWithdraw_runs, Ho. unfold transfer_ok, getBalance.
  rewrite Z.leb_refl. cbn [andb].
  destruct (Z.eqb_spec to (self env)) as [Hself|Hself]; cbn [negb andb].
  - cbn [succeeds reason_of commit]. split; [|split].
    + split; [discriminate | intros [H _]; contradiction].
    + discriminate.
    + intros _. split; reflexivity.
  - destruct (accepts env to (balance s)); cbn [succeeds reason_of commit];
      (split; [|split]).
    + split; [intros _; split; [exact Hself | reflexivity] | reflexivity].
    + intros _. cbn [trace_of app paid_to]. rewrite Z.eqb_refl. lia.
    + discriminate.
    + split; [discriminate | intros [_ H]; discriminate].
    + discriminate.
    + intros _. split; reflexivity.
Qed.

Lemma X8_emergencyWithdraw_offers_whole_balance_witness :
  succeeds (emergencyWithdraw placeholder_env admin 9 funded_paused []) = true
  /\ paid_to
       (trace_of (emergencyWithdraw placeholder_env admin 9 funded_paused []))
       9
     = DEPOSIT_AMOUNT.
Proof.
  destruct (X8_emergencyWithdraw_offers_whole_balance placeholder_env admin 9
              funded_paused) as (Hiff & Hpaid & _);
    [vm_compute; reflexivity|].
  assert (Hok : succeeds (emergencyWithdraw placeholder_env admin 9
                            funded_paused []) = true).
  { apply Hiff. split; [vm_compute; discriminate | reflexivity]. }
  split; [exact Hok|]. rewrite (Hpaid Hok). vm_compute. reflexivity.
Defined.

(** X9. [withdraw] never succeeds when the contract holds less than
    [DEPOSIT_AMOUNT] at the time of the call: whatever the arguments it
    reverts, and when the pause gate, the guard and the four checks all pass
    it reverts with "Transfer failed", the nullifier staying unspent. *)
Theorem X9_no_withdrawal_from_short_custody (env : Env) (p : Proof)
    (root nh : bytes32) (rcp : address) (s : State) :
  getBalance s < DEPOSIT_AMOUNT ->
  succeeds (withdraw env p root nh rcp s []) = false
  /\ commit s (withdraw env p root nh rcp s []) = s
  /\ (_paused s = false -> _status s = _NOT_ENTERED -> rcp <> 0 ->
      mapping_get (nullifiers s) nh = false -> isValidRoot s root = true ->
      verifyProof env (verifier s) p [root; nh; rcp] = Returned true ->
      reason_of (withdraw env p root nh rcp s [])
      = Some (Reason "Transfer failed")).
Proof.
  unfold getBalance. intros Hb.
  assert (Hshort : transfer_ok env (spent_state s nh) rcp DEPOSIT_AMOUNT
                   = false).
  { unfold transfer_ok, spent_state, entered. mred.
    apply Z.leb_gt in Hb. by rewrite Hb. }
  assert (Hfail : succeeds (withdraw env p root nh rcp s []) = false).
  { rewrite withdraw_runs. unfold withdraw_result.
    rewrite Hshort. crunch; reflexivity. }
  split; [exact Hfail|]. split.
  - by destruct (withdraw env p root nh rcp s []).
  - intros Hp Hs Hr Hn Hv Hok. rewrite withdraw_runs. unfold withdraw_result.
    apply Z.eqb_neq in Hr. rewrite Hp, Hs, Hr, Hn, Hv.
    change (_NOT_ENTERED =? _ENTERED) with false. cbn [negb]. cbv zeta.
    by rewrite Hok, Hshort.
Qed.

Lemma X9_no_withdrawal_from_short_custody_witness :
  getBalance genesis < DEPOSIT_AMOUNT
  /\ succeeds (withdraw placeholder_env zero_proof 0 7 77 genesis []) = false.
Proof.
  assert (Hb : getBalance genesis < DEPOSIT_AMOUNT)
    by (vm_compute; reflexivity).
  split; [exact Hb|].
  apply (X9_no_withdrawal_from_short_custody placeholder_env zero_proof
           0 7 77 genesis Hb).
Defined.

(** What a transaction of the model does to the custody balance (no
    callback, no ether from outside a call). *)
Lemma step_balance s x :
  balance (step s x)
  = (if succeeds (execute x s)
     then if is_deposit (tx_call x) then balance s + DEPOSIT_AMOUNT
          else if is_withdraw (tx_call x) then balance s - DEPOSIT_AMOUNT
          else if is_emergencyWithdraw (tx_call x) then 0
          else balance s
     else balance s)
  /\ (is_withdraw (tx_call x) && succeeds (execute x s) = true ->
      DEPOSIT_AMOUNT <= balance s).
Proof.
  unfold step. rewrite execute_runs.
  destruct x as [env m c]. cbn [tx_call tx_msg tx_env].
  destruct c as [v cm|p root nh rcp|r| | |to|n|];
    cbn [is_deposit is_withdraw is_emergencyWithdraw andb].
  - unfold deposit_result, exited, entered.
    crunch; cbn [commit succeeds]; mred; split; try discriminate; auto.
    match goal with H : negb (v =? DEPOSIT_AMOUNT) = false |- _ =>
      apply negb_false_iff, Z.eqb_eq in H; by rewrite H end.
  - unfold withdraw_result, exited, entered, spent_state, transfer_ok.
    crunch; cbn [commit succeeds]; mred; split; try discriminate; auto.
    intros _.
    match goal with H : _ && _ && _ = true |- _ =>
      apply andb_true_iff in H as [H _];
      apply andb_true_iff in H as [H _]; by apply Z.leb_le in H end.
  - crunch; cbn [commit succeeds]; mred; split; try discriminate; auto.
  - crunch; cbn [commit succeeds]; mred; split; try discriminate; auto.
  - crunch; cbn [commit succeeds]; mred; split; try discriminate; auto.
  - crunch; cbn [commit succeeds]; mred; split; try discriminate; auto.
    lia.
  - crunch; cbn [commit succeeds]; mred; split; try discriminate; auto.
  - crunch; cbn [commit succeeds]; mred; split; try discriminate; auto.
Qed.

Lemma custody_accounting txs : forall s,
  0 <= balance s ->
  0 <= balance (run s txs)
  /\ balance (run s txs)
     <= balance s
        + DEPOSIT_AMOUNT * Z.of_nat (count_successes is_deposit s txs)
        - DEPOSIT_AMOUNT * Z.of_nat (count_successes is_withdraw s txs)
  /\ (count_successes is_emergencyWithdraw s txs = 0%nat ->
      balance (run s txs)
      = balance s
        + DEPOSIT_AMOUNT * Z.of_nat (count_successes is_deposit s txs)
        - DEPOSIT_AMOUNT * Z.of_nat (count_successes is_withdraw s txs)).
Proof.
  induction txs as [|x txs IH]; intros s Hb.
  - cbn [run fold_left count_successes]. unfold DEPOSIT_AMOUNT. lia.
  - rewrite run_cons. cbn [count_successes].
    destruct (step_balance s x) as [Hstep Hcover].
    assert (Hb' : 0 <= balance (step s x)).
    { rewrite Hstep.
      destruct (succeeds (execute x s)); [|exact Hb].
      destruct (is_deposit (tx_call x)); [unfold DEPOSIT_AMOUNT; lia|].
      destruct (is_withdraw (tx_call x)); [cbn [andb] in Hcover; lia|].
      destruct (is_emergencyWithdraw (tx_call x)); lia. }
    destruct (IH (step s x) Hb') as (H0 & Hle & Heq).
    split; [exact H0|].
    revert Hle Heq. rewrite Hstep.
    destruct (tx_call x); cbn [is_deposit is_withdraw is_emergencyWithdraw];
      destruct (succeeds (execute x s)); cbn [andb];
      unfold DEPOSIT_AMOUNT in *; intros Hle Heq;
      (split; [lia | intros Hnone; try discriminate Hnone;
                     specialize (Heq Hnone); lia]).
Qed.

(** ** The registries *)

(** X12. Each registry is written by its own entry point only: a
    transaction, other than an [emergencyWithdraw], after which a nullifier
    hash reads differently is a successful [withdraw] of that hash, and one
    after which a commitment reads differently is a successful [deposit] of
    that commitment with [DEPOSIT_AMOUNT].  So [deposit] never touches the
    nullifiers, [withdraw] never touches the commitments, and
    [addMerkleRoot], [pause] and [unpause] touch neither.
    ([emergencyWithdraw] is left out: it pays its recipient without the
    reentrancy guard, so the recipient may call [deposit] or [withdraw]
    within the same transaction; during the transfer of a [withdraw] the
    guard rejects such calls.) *)
Theorem X12_registries_written_by_their_entry_point (s : State) (x : Tx) :
  is_emergencyWithdraw (tx_call x) = false ->
  (forall h,
     mapping_get (nullifiers (step s x)) h <> mapping_get (nullifiers s) h ->
     succeeds (execute x s) = true
     /\ exists p root rcp, tx_call x = CallWithdraw p root h rcp)
  /\ (forall c,
        mapping_get (commitments (step s x)) c
        <> mapping_get (commitments s) c ->
        succeeds (execute x s) = true
        /\ tx_call x = CallDeposit DEPOSIT_AMOUNT c).
Proof.
  intros Hnot. unfold step. rewrite execute_runs.
  destruct x as [env m c0]. cbn [tx_call tx_msg tx_env] in *.
  destruct c0 as [v cm|p root nh rcp|r| | |to|n|];
    cbn [is_emergencyWithdraw] in Hnot; try discriminate Hnot.
  - unfold deposit_result, exited, entered.
    crunch; cbn [commit succeeds]; mred; split; intros k Hk;
      try congruence.
    revert Hk. rewrite mapping_get_insert.
    destruct (Z.eqb_spec k cm) as [Hkc|]; intros Hk; [subst k|congruence].
    match goal with H : negb (v =? DEPOSIT_AMOUNT) = false |- _ =>
      apply negb_false_iff, Z.eqb_eq in H; by rewrite H end.
  - unfold withdraw_result, spent_state, exited, entered.
    crunch; cbn [commit succeeds]; mred; split; intros k Hk;
      try congruence.
    revert Hk. rewrite mapping_get_insert.
    destruct (Z.eqb_spec k nh) as [Hkn|]; intros Hk; [subst k|congruence].
    split; [reflexivity|]. by exists p, root, rcp.
  - crunch; cbn [commit]; mred; split; intros k Hk; congruence.
  - crunch; cbn [commit]; mred; split; intros k Hk; congruence.
  - crunch; cbn [commit]; mred; split; intros k Hk; congruence.
  - crunch; cbn [commit]; mred; split; intros k Hk; congruence.
  - crunch; cbn [commit]; mred; split; intros k Hk; congruence.
Qed.

Lemma X12_registries_written_by_their_entry_point_witness :
  mapping_get (commitments (step genesis first_deposit)) 42
  <> mapping_get (commitments genesis) 42
  /\ tx_call first_deposit = CallDeposit DEPOSIT_AMOUNT 42.
Proof.
  assert (H : mapping_get (commitments (step genesis first_deposit)) 42
              <> mapping_get (commitments genesis) 42)
    by (vm_compute; discriminate).
  split; [exact H|].
  destruct (X12_registries_written_by_their_entry_point genesis first_deposit)
    as [_ Hc]; [reflexivity|].
  apply (Hc 42 H).
Defined.

(** ** Entry points in sequence *)

Lemma reachable_balance_nonneg s : reachable s -> 0 <= balance s.
Proof.
  induction 1 as [d v|s x _ IH]; [cbn; lia|].
  by destruct (custody_accounting [x] s IH) as [H _].
Qed.

(** X13. In every reachable, unpaused state, a deposit of a new commitment
    followed by a withdrawal against the root that [getCurrentRoot] returns
    goes through, whenever the verifier accepts the proof for that root and
    the recipient (not null, not the mixer) accepts the ether: the nullifier
    hash, which need not be related to the commitment, is spent, the custody
    is back to what it was before the deposit, and the same withdrawal sent
    again reverts with "Nullifier used". *)
Theorem X13_deposit_then_withdraw (env : Env) (m : Msg) (p : Proof)
    (c h : bytes32) (rcp : address) (s : State) :
  reachable s ->
  _paused s = false ->
  mapping_get (commitments s) c = false ->
  mapping_get (nullifiers s) h = false ->
  rcp <> 0 -> rcp <> self env ->
  accepts env rcp DEPOSIT_AMOUNT = true ->
  (forall root, getCurrentRoot s = Returns root ->
                verifyProof env (verifier s) p [root; h; rcp] = Returned true) ->
  let s1 := step s (mkTx env m (CallDeposit DEPOSIT_AMOUNT c)) in
  exists root,
    getCurrentRoot s1 = Returns root
    /\ succeeds (execute (mkTx env m (CallWithdraw p root h rcp)) s1) = true
    /\ getBalance (step s1 (mkTx env m (CallWithdraw p root h rcp)))
       = getBalance s
    /\ mapping_get
         (nullifiers (step s1 (mkTx env m (CallWithdraw p root h rcp)))) h
       = true
    /\ execute (mkTx env m (CallWithdraw p root h rcp))
         (step s1 (mkTx env m (CallWithdraw p root h rcp)))
       = Revert (Reason "Nullifier used") [EvStore (WStatus _ENTERED)].
Proof.
  intros Hreach Hp Hc Hn Hr Hself Hacc Hver s1.
  pose proof (reachable_not_entered s Hreach) as Hs.
  pose proof (reachable_balance_nonneg s Hreach) as Hb.
  destruct (reachable_roots_nonempty s Hreach) as [rest Hroots].
  assert (Hs1 : s1 = exited (apply_write (WCommitment c true)
                       (entered (set_balance s (balance s + DEPOSIT_AMOUNT))))).
  { subst s1. unfold step. rewrite execute_runs. cbn [tx_call tx_msg].
    unfold deposit_result. rewrite Hp, Hs, Hc. by rewrite Z.eqb_refl. }
  destruct (last (merkleRoots s)) as [root|] eqn:Hlast;
    [|apply last_None in Hlast; congruence].
  assert (Hcur : getCurrentRoot s = Returns root)
    by (by rewrite getCurrentRoot_last, Hlast).
  assert (Hvalid : isValidRoot s root = true).
  { apply last_Some in Hlast as [l' Hl]. unfold isValidRoot.
    rewrite Hl, isValidRoot_from_app. cbn.
    by rewrite Z.eqb_refl, orb_true_r. }
  exists root. clearbody s1. subst s1.
  split; [by rewrite getCurrentRoot_last; unfold exited, entered; mred;
             rewrite Hlast|].
  assert (Hsent : transfer_ok env
            (spent_state
               (exited (apply_write (WCommitment c true)
                  (entered (set_balance s (balance s + DEPOSIT_AMOUNT))))) h)
            rcp DEPOSIT_AMOUNT = true).
  { unfold transfer_ok, spent_state, exited, entered. mred.
    apply Z.eqb_neq in Hself. rewrite Hself, Hacc.
    destruct (Z.leb_spec DEPOSIT_AMOUNT (balance s + DEPOSIT_AMOUNT)); [done|lia]. }
  assert (Hrun : execute (mkTx env m (CallWithdraw p root h rcp))
            (exited (apply_write (WCommitment c true)
               (entered (set_balance s (balance s + DEPOSIT_AMOUNT)))))
          = Ok tt
              (exited (set_balance
                 (spent_state
                    (exited (apply_write (WCommitment c true)
                       (entered (set_balance s
                                   (balance s + DEPOSIT_AMOUNT))))) h)
                 (balance s + DEPOSIT_AMOUNT - DEPOSIT_AMOUNT)))
              [EvStore (WStatus _ENTERED);
               EvVerify (verifier s) p [root; h; rcp] (Returned true);
               EvStore (WNullifier h true);
               EvCall rcp DEPOSIT_AMOUNT
                 (spent_state
                    (exited (apply_write (WCommitment c true)
                       (entered (set_balance s
                                   (balance s + DEPOSIT_AMOUNT))))) h) true;
               EvEmit (Withdrawal rcp DEPOSIT_AMOUNT h);
               EvStore (WStatus _NOT_ENTERED)]).
  { rewrite execute_runs. cbn [tx_call tx_env]. unfold withdraw_result.
    rewrite Hsent. unfold isValidRoot, exited, entered. mred.
    apply Z.eqb_neq in Hr. rewrite Hp, Hr, Hn.
    change (_NOT_ENTERED =? _ENTERED) with false.
    unfold isValidRoot in Hvalid. rewrite Hvalid. cbn [negb]. cbv zeta.
    rewrite (Hver root Hcur). reflexivity. }
  unfold step at 1 2 3. rewrite Hrun. cbn [succeeds commit].
  split; [reflexivity|]. split; [|split].
  - unfold getBalance, exited, spent_state, entered. mred. lia.
  - unfold exited, spent_state, entered. mred.
    by rewrite mapping_get_insert, Z.eqb_refl.
  - rewrite execute_runs. cbn [tx_call tx_env]. unfold withdraw_result.
    unfold exited, spent_state, entered. mred.
    apply Z.eqb_neq in Hr.
    rewrite Hp, Hr, mapping_get_insert, Z.eqb_refl. reflexivity.
Qed.

Lemma X13_deposit_then_withdraw_witness :
  exists root,
    getCurrentRoot (step funded (mkTx placeholder_env user
                                   (CallDeposit DEPOSIT_AMOUNT 43)))
    = Returns root
    /\ succeeds
         (execute (mkTx placeholder_env user (CallWithdraw zero_proof root 7 77))
            (step funded (mkTx placeholder_env user
                            (CallDeposit DEPOSIT_AMOUNT 43)))) = true.
Proof.
  destruct (X13_deposit_then_withdraw placeholder_env user zero_proof 43 7 77
              funded) as (root & Hcur & Hok & _).
  - repeat constructor.
  - vm_compute. reflexivity.
  - vm_compute. reflexivity.
  - vm_compute. reflexivity.
  - discriminate.
  - vm_compute. discriminate.
  - reflexivity.
  - reflexivity.
  - exists root. split; assumption.
Defined.

(** X14. The reentrancy guard is released by every transaction: from a
    storage with the guard not entered, and so from deployment, it is not
    entered after any run, whether the calls returned or reverted, so no
    call is ever locked out by an earlier one.  With the guard entered, as
    during the transfer of a withdrawal, every call into [withdraw] and
    [deposit] reverts with "ReentrancyGuard: reentrant call". *)
Theorem X14_guard_released (s : State) :
  (_status s = _NOT_ENTERED ->
   forall txs, _status (run s txs) = _NOT_ENTERED)
  /\ (reachable s -> _status s = _NOT_ENTERED)
  /\ (_status s = _ENTERED -> _paused s = false ->
      (forall env p root nh rcp,
         withdraw env p root nh rcp s []
         = Revert (Reason "ReentrancyGuard: reentrant call") [])
      /\ (forall m v c,
            deposit m v c s []
            = Revert (Reason "ReentrancyGuard: reentrant call")
                [EvReceive v])).
Proof.
  split; [|split].
  - intros Hs txs. by apply run_not_entered.
  - apply reachable_not_entered.
  - intros Hs Hp. split.
    + intros env p root nh rcp.
      by apply (guard_rejects_withdraw env p root nh rcp s []).
    + intros m v c. by apply (guard_rejects_deposit m v c s []).
Qed.

Lemma X14_guard_released_witness :
  _status (run genesis [deposit_tx 1; deposit_tx 1; user_tx CallPause])
  = _NOT_ENTERED
  /\ withdraw placeholder_env zero_proof 0 8 77 (spent_state funded 7) []
     = Revert (Reason "ReentrancyGuard: reentrant call") [].
Proof.
  split.
  - destruct (X14_guard_released genesis) as [H _]. apply H. reflexivity.
  - destruct (X14_guard_released (spent_state funded 7)) as (_ & _ & H).
    destruct H as [H _]; [reflexivity | vm_compute; reflexivity|].
    apply H.
Defined.
